(** * django-loginas: the impersonation helpers of [loginas/utils.py]

    A shallow embedding of [no_update_last_login], [login_as],
    [restore_original_login] and [is_impersonated_session], together
    with the parts of the web framework they drive: the timestamp signer,
    the [user_logged_in] signal, the session-based [login]/[logout], the
    message queue and the admin log.

    Conventions of the embedding:
    - Python exceptions are values of [Exn]; a pure call that can raise
      returns a [Result].  A call with effects returns how it ended
      ([Res]) together with the state it reached, also when it ended by an
      exception; [login_as] returns an [Outcome], which adds the user
      object it was given.
    - The wall clock is a rational number of seconds ([time.time()] without
      floating-point rounding) and is an argument of every call that reads it.
    - The request has passed the authentication and message middleware:
      [request.user] and the message queue exist.  [request.session] may be
      missing, since [is_impersonated_session] tests for it.
    - A user is passed by value: [login_as] returns the user object as it
      left it ([user.backend] may have been assigned).
    - Of the receivers of [user_logged_in] only their being called is
      recorded, not what they do. *)

From Stdlib Require Import ZArith QArith Qround String Ascii List Lia
  DecimalString DecimalFacts DecimalPos DecimalZ.
From stdpp Require Import base option gmap strings list.

Local Open Scope string_scope.
Local Open Scope Z_scope.

(** ** Exceptions and results *)

Inductive Exn :=
| ImproperlyConfigured
| AttributeError
| BadSignature
| SignatureExpired
| DoesNotExist
| ValueError
| IndexError
| ValidationError
| TypeError.

#[global] Instance Exn_eq_dec : EqDecision Exn.
Proof. solve_decision. Defined.

Inductive Result (A : Type) :=
| Ok (a : A)
| Raise (e : Exn).
Arguments Ok {A} a.
Arguments Raise {A} e.

(** ** Text helpers *)

Module Text.

(** [s.rsplit(":", 1)]: cut at the last separator; [None] stands for the
    one-element list Python returns when there is no separator. *)
Definition sep : ascii := ":"%char.

Fixpoint rsplit (s : string) : option (string * string) :=
  match s with
  | EmptyString => None
  | String c rest =>
      match rsplit rest with
      | Some (a, b) => Some (String c a, b)
      | None => if Ascii.eqb c sep then Some (EmptyString, rest) else None
      end
  end.

(** [":" not in s] *)
Fixpoint sep_free (s : string) : bool :=
  match s with
  | EmptyString => true
  | String c rest => negb (Ascii.eqb c sep) && sep_free rest
  end.

(** [str(n)] for an integer. *)
Definition str_int (n : Z) : string := NilZero.string_of_int (Z.to_int n).

(** The characters [int()] strips: Python's whitespace among the ASCII
    characters (tab to carriage return, the four separators, space). *)
Definition is_space (c : ascii) : bool :=
  let n := nat_of_ascii c in
  ((9 <=? n) && (n <=? 13) || (28 <=? n) && (n <=? 32))%nat.

Definition is_digit (c : ascii) : bool :=
  let n := nat_of_ascii c in ((48 <=? n) && (n <=? 57))%nat.

Fixpoint lstrip (s : string) : string :=
  match s with
  | EmptyString => EmptyString
  | String c rest => if is_space c then lstrip rest else s
  end.

Fixpoint rstrip (s : string) : string :=
  match s with
  | EmptyString => EmptyString
  | String c rest =>
      match rstrip rest with
      | EmptyString => if is_space c then EmptyString else String c EmptyString
      | kept => String c kept
      end
  end.

(** [s.strip()] *)
Definition strip (s : string) : string := rstrip (lstrip s).

(** The digits of a decimal literal: decimal digits, with single
    underscores allowed between two of them.  [None]: not a literal. *)
Fixpoint ungroup (s : string) (after_digit : bool) : option string :=
  match s with
  | EmptyString => if after_digit then Some EmptyString else None
  | String c rest =>
      if is_digit c then option_map (String c) (ungroup rest true)
      else if Ascii.eqb c "_" then
        if after_digit then ungroup rest false else None
      else None
  end.

(** [int(s)] for a text [s], in base ten: surrounding whitespace is
    stripped, a sign may precede the digits, and the digits may be grouped
    by underscores.  [None] is Python's ValueError.  Texts are byte
    strings: digits and spaces outside ASCII are not read. *)
Definition parse_int (s : string) : option Z :=
  let t := strip s in
  let '(negative, body) :=
    match t with
    | String "-" rest => (true, rest)
    | String "+" rest => (false, rest)
    | _ => (false, t)
    end in
  match ungroup body false with
  | None => None
  | Some digits =>
      match NilZero.uint_of_string digits with
      | Some d => Some (if negative then - Z.of_uint d else Z.of_uint d)
      | None => None
      end
  end.

Fixpoint all_digits (s : string) : bool :=
  match s with
  | EmptyString => true
  | String c rest => is_digit c && all_digits rest
  end.

(** Python truthiness of a string. *)
Definition truthy (s : string) : bool :=
  match s with EmptyString => false | _ => true end.

End Text.

(** ** django.utils.baseconv / django.core.signing: base 62 *)

Module Base62.

Definition BASE62_ALPHABET : string :=
  "0123456789ABCDEFGHIJKLMNOPQRSTUVWXYZabcdefghijklmnopqrstuvwxyz".

(** [BASE62_ALPHABET[r]] *)
Definition digit (r : Z) : ascii :=
  match String.get (Z.to_nat r) BASE62_ALPHABET with
  | Some c => c
  | None => "0"%char
  end.

(** [s.index(c)]; [None] is Python's ValueError. *)
Fixpoint index (c : ascii) (s : string) : option Z :=
  match s with
  | EmptyString => None
  | String d rest =>
      if Ascii.eqb c d then Some 0 else option_map Z.succ (index c rest)
  end.

(** The loop [while s > 0: s, r = divmod(s, 62); encoded = A[r] + encoded].
    Every round at least halves [s], so the number of bits of [s] bounds
    the number of rounds. *)
Fixpoint b62_loop (fuel : nat) (s : Z) (encoded : string) : string :=
  match fuel with
  | O => encoded
  | S fuel' =>
      if 0 <? s
      then b62_loop fuel' (s / 62) (String (digit (s mod 62)) encoded)
      else encoded
  end.

Definition b62_encode (s : Z) : string :=
  if s =? 0 then "0"
  else
    let sign := if s <? 0 then "-" else "" in
    let s := Z.abs s in
    sign ++ b62_loop (S (Z.to_nat (Z.log2 s))) s "".

(** [for digit in s: decoded = decoded * 62 + A.index(digit)] *)
Fixpoint b62_value (s : string) (decoded : Z) : option Z :=
  match s with
  | EmptyString => Some decoded
  | String d rest =>
      match index d BASE62_ALPHABET with
      | Some i => b62_value rest (decoded * 62 + i)
      | None => None
      end
  end.

Definition b62_decode (s : string) : Result Z :=
  if String.eqb s "0" then Ok 0
  else
    match s with
    | EmptyString => Raise IndexError
    | String c rest =>
        if Ascii.eqb c "-"%char
        then match b62_value rest 0 with
             | Some d => Ok (- d)
             | None => Raise ValueError
             end
        else match b62_value s 0 with
             | Some d => Ok d
             | None => Raise ValueError
             end
    end.

End Base62.

(** ** django.core.signing: Signer and TimestampSigner *)

Module Signing.
Import Text Base62.

(** [int(time.time())]: truncation toward zero. *)
Definition int_of_time (now : Q) : Z := Z.quot (Qnum now) (Zpos (Qden now)).

(** [timedelta(days=d).total_seconds()] *)
Definition total_seconds_of_days (d : Z) : Q := inject_Z (86400 * d).

Section WithKey.
(** The keyed MAC of the signer, rendered as text ([base64_hmac] under
    the project's secret key). *)
Variable signature : string -> string.

Definition Signer_sign (value : string) : string :=
  value ++ String sep (signature value).

Definition Signer_unsign (signed_value : string) : Result string :=
  match rsplit signed_value with
  | None => Raise BadSignature
  | Some (value, sig) =>
      if String.eqb sig (signature value) then Ok value
      else Raise BadSignature
  end.

Definition timestamp (now : Q) : string := b62_encode (int_of_time now).

Definition sign (value : string) (now : Q) : string :=
  Signer_sign (value ++ String sep (timestamp now)).

(** [TimestampSigner.unsign(value, max_age)].  The age is the exact
    difference of the clock and the decoded time stamp.  The code
    subtracts in floating point, and raises OverflowError on a time stamp
    too large for a float; both agree on the time stamps a clock signs. *)
Definition unsign (value : string) (max_age : Q) (now : Q) : Result string :=
  match Signer_unsign value with
  | Raise e => Raise e
  | Ok result =>
      match rsplit result with
      | None => Raise ValueError
      | Some (value, ts) =>
          match b62_decode ts with
          | Raise e => Raise e
          | Ok t =>
              let age := (now - inject_Z t)%Q in
              if negb (Qle_bool age max_age) then Raise SignatureExpired
              else Ok value
          end
      end
  end.
End WithKey.

End Signing.

(** ** django.dispatch: the receivers of a signal *)

Module Dispatch.

Inductive Receiver :=
| update_last_login
| other_receiver (name : string).

#[global] Instance Receiver_eq_dec : EqDecision Receiver.
Proof. solve_decision. Defined.

(** A connection, as the arguments [connect] was called with: the
    receiver, the sender it is restricted to ([None]: any sender) and the
    dispatch uid, if one was given. *)
Record Connection := {
  conn_receiver : Receiver;
  conn_sender : option string;
  conn_uid : option string
}.

#[global] Instance Connection_eq_dec : EqDecision Connection.
Proof. solve_decision. Defined.

(** A connection is found again by its lookup key: the dispatch uid when
    there is one, the identity of the receiver otherwise, paired with the
    sender. *)
Inductive LookupId :=
| ById (receiver : Receiver)
| ByUid (dispatch_uid : string).

#[global] Instance LookupId_eq_dec : EqDecision LookupId.
Proof. solve_decision. Defined.

Definition LookupKey : Type := LookupId * option string.

Definition lookup_key (receiver : Receiver) (sender : option string)
    (dispatch_uid : option string) : LookupKey :=
  match dispatch_uid with
  | Some uid => (ByUid uid, sender)
  | None => (ById receiver, sender)
  end.

Definition key_of (c : Connection) : LookupKey :=
  lookup_key (conn_receiver c) (conn_sender c) (conn_uid c).

Definition Receivers : Type := list Connection.

Definition has_key (k : LookupKey) (receivers : Receivers) : bool :=
  existsb (fun c => bool_decide (key_of c = k)) receivers.

(** [Signal.connect]: appended unless the lookup key is already there. *)
Definition connect (receiver : Receiver) (sender dispatch_uid : option string)
    (receivers : Receivers) : Receivers :=
  if has_key (lookup_key receiver sender dispatch_uid) receivers then receivers
  else
    (receivers
       ++ [{| conn_receiver := receiver; conn_sender := sender;
              conn_uid := dispatch_uid |}])%list.

(** The scan of [Signal.disconnect]: delete the first entry under the key. *)
Fixpoint remove_key (k : LookupKey) (receivers : Receivers) : bool * Receivers :=
  match receivers with
  | [] => (false, [])
  | c :: rest =>
      if bool_decide (key_of c = k) then (true, rest)
      else let '(found, rest') := remove_key k rest in (found, c :: rest')
  end.

(** [Signal.disconnect] returns whether a receiver was disconnected. *)
Definition disconnect (receiver : Receiver) (sender dispatch_uid : option string)
    (receivers : Receivers) : bool * Receivers :=
  remove_key (lookup_key receiver sender dispatch_uid) receivers.

(** [Signal.send(sender, ...)]: the receivers called, in order: those
    connected for any sender or for this one. *)
Definition live_receivers (sender : string) (receivers : Receivers) : list Receiver :=
  map conn_receiver
    (filter (fun c => conn_sender c = None \/ conn_sender c = Some sender) receivers).

End Dispatch.

(** ** The framework's data: users, requests, messages, the admin log *)

Module Framework.
Import Text Dispatch.

Record User := {
  pk : option Z;              (* [None] on an instance that was never saved *)
  username : string;          (* [user.__dict__[username_field]], also [str(user)] *)
  backend : option string;    (* the [backend] attribute, when it is set *)
  session_auth_hash : string  (* [user.get_session_auth_hash()] *)
}.

Definition set_backend (user : User) (b : option string) : User :=
  {| pk := pk user; username := username user; backend := b;
     session_auth_hash := session_auth_hash user |}.

(** [request.user] is [AnonymousUser()] or a user of the user model. *)
Inductive RequestUser :=
| AnonymousUser
| ModelUser (u : User).

Definition request_user_pk (u : RequestUser) : option Z :=
  match u with AnonymousUser => None | ModelUser u => pk u end.

Definition str_user (u : User) : string := username u.

Definition str_request_user (u : RequestUser) : string :=
  match u with AnonymousUser => "AnonymousUser" | ModelUser u => str_user u end.

(** [str(pk)], as the [%s] of the signer and the session key render it. *)
Definition str_pk (p : option Z) : string :=
  match p with Some z => str_int z | None => "None" end.

(** [if original_user_pk:] *)
Definition pk_truthy (p : option Z) : bool :=
  match p with Some z => negb (z =? 0) | None => false end.

(** [Model.__eq__] against what [get_user] returned: [None] equals no user,
    users of the model are equal when their pk is, and an unsaved instance
    (pk [None]) equals only itself, which a backend never returns. *)
Definition user_eq (user : User) (other : option User) : bool :=
  match other with
  | None => false
  | Some v =>
      match pk user with
      | None => false
      | Some k => bool_decide (pk v = Some k)
      end
  end.

(** An authentication backend object; [get_user] is [None] when the class
    has no such attribute. *)
Record Backend := { get_user : option (option Z -> option User) }.

Record Message := {
  level : Z;
  message : string;
  extra_tags : string
}.
Definition INFO : Z := 20.
Definition WARNING : Z := 30.

Record LogEntry := {
  user_id : option Z;
  content_type_id : Z;
  object_id : option Z;
  object_repr : string;
  change_message : string;
  action_flag : Z
}.
Definition CHANGE : Z := 2.

(** A request: its session (when the attribute is there), its user, and
    its message storage: the recording level (the setting MESSAGE_LEVEL,
    unless the level was set on the request) and the messages queued.
    The storage is always there: the message middleware is installed. *)
Record Request := {
  request_session : option (gmap string string);
  request_user : RequestUser;
  request_message_level : Z;
  request_messages : list Message
}.

(** Everything the helpers can change: the request, the rows of the admin
    log, the receivers of [user_logged_in] (process-wide), and the calls
    the signal has made (receiver and pk of the user it was sent for). *)
Record World := {
  request : Request;
  LogEntry_objects : list LogEntry;
  user_logged_in : Receivers;
  dispatched : list (Receiver * option Z)
}.

Definition set_request (w : World) (r : Request) : World :=
  {| request := r; LogEntry_objects := LogEntry_objects w;
     user_logged_in := user_logged_in w; dispatched := dispatched w |}.

Definition set_receivers (w : World) (rs : Receivers) : World :=
  {| request := request w; LogEntry_objects := LogEntry_objects w;
     user_logged_in := rs; dispatched := dispatched w |}.

Definition set_session (r : Request) (s : gmap string string) : Request :=
  {| request_session := Some s; request_user := request_user r;
     request_message_level := request_message_level r;
     request_messages := request_messages r |}.

(** How a call ended. *)
Inductive Res :=
| Returned
| Raised (e : Exn).

(** [messages.add_message(request, level, message, extra_tags)]: the
    storage returns without queuing when the message is empty or its level
    is below the recording level. *)
Definition add_message (lvl : Z) (text tags : string) (w : World) : World :=
  let r := request w in
  if negb (truthy text) then w
  else if lvl <? request_message_level r then w
  else
    set_request w
      {| request_session := request_session r; request_user := request_user r;
         request_message_level := request_message_level r;
         request_messages :=
           (request_messages r
              ++ [{| level := lvl; message := text; extra_tags := tags |}])%list |}.

(** [LogEntry.objects.log_action(...)] *)
Definition log_action (e : LogEntry) (w : World) : World :=
  {| request := request w; LogEntry_objects := (LogEntry_objects w ++ [e])%list;
     user_logged_in := user_logged_in w; dispatched := dispatched w |}.

End Framework.

(** ** Settings *)

Module Settings.
Import Framework.

(** [loginas/settings.py], read by [utils.py] as [la_settings]. *)
Record la_settings := {
  USER_SESSION_FLAG : string;
  UPDATE_LAST_LOGIN : bool;
  USER_SESSION_DAYS_TIMESTAMP : Z;
  MESSAGE_LOGIN_SWITCH : string -> string;  (* [.format(username=...)] *)
  MESSAGE_LOGIN_REVERT : string -> string;  (* [.format(username=...)] *)
  MESSAGE_EXTRA_TAGS : string
}.

(** What the project gives the framework: the backends and how their
    dotted paths load, the signer's MAC, the table of the user model and
    the content type of that model. *)
Record django_settings := {
  AUTHENTICATION_BACKENDS : list string;
  load_backend : string -> Backend;
  signature : string -> string;
  User_objects : list User;
  User_content_type : Z
}.

End Settings.

(** ** django.contrib.auth: login and logout *)

Module Auth.
Import Text Dispatch Framework Settings.

Definition SESSION_KEY : string := "_auth_user_id".
Definition BACKEND_SESSION_KEY : string := "_auth_user_backend".
Definition HASH_SESSION_KEY : string := "_auth_user_hash".

(** The class of the user model, the sender of [user_logged_in]. *)
Definition User_class : string := "User".

Section WithSettings.
Variable dj : django_settings.

(** [user_logged_in.send(sender=user.__class__, request=request, user=user)] *)
Definition send_user_logged_in (user : User) (w : World) : World :=
  {| request := request w; LogEntry_objects := LogEntry_objects w;
     user_logged_in := user_logged_in w;
     dispatched :=
       (dispatched w
          ++ map (fun r => (r, pk user))
               (live_receivers User_class (user_logged_in w)))%list |}.

(** The session [login] goes on with: flushed when it belongs to
    another user or to another password, kept (under a new key)
    otherwise.  The stored id is read back with the [to_python] of the pk
    field, which raises ValidationError on a text that is no integer. *)
Definition session_for (user : User) (s : gmap string string)
    : Result (gmap string string) :=
  match s !! SESSION_KEY with
  | Some k =>
      match parse_int k with
      | None => Raise ValidationError
      | Some z =>
          if negb (bool_decide (Some z = pk user))
             || (truthy (session_auth_hash user)
                 && negb (String.eqb (default "" (s !! HASH_SESSION_KEY))
                            (session_auth_hash user)))
          then Ok ∅
          else Ok s
      end
  | None => Ok s
  end.

(** [backend or user.backend], with the fallback on a single
    configured backend. *)
Definition backend_for (user : User) : Result string :=
  match backend user with
  | Some b => Ok b
  | None =>
      match AUTHENTICATION_BACKENDS dj with
      | [] => Raise ImproperlyConfigured
      | [b] => Ok b
      | _ => Raise ValueError
      end
  end.

(** The three keys [login] writes. *)
Definition auth_session (user : User) (b : string) (s : gmap string string)
    : gmap string string :=
  <[HASH_SESSION_KEY := session_auth_hash user]>
    (<[BACKEND_SESSION_KEY := b]>
       (<[SESSION_KEY := str_pk (pk user)]> s)).

(** [login(request, user)]: the session is taken over, the three keys are
    written, [request.user] becomes the user and the signal is sent. *)
Definition login (user : User) (w : World) : Res * World :=
  let r := request w in
  match request_session r with
  | None => (Raised AttributeError, w)
  | Some s =>
      match session_for user s with
      | Raise e => (Raised e, w)
      | Ok s =>
          match backend_for user with
          | Raise e => (Raised e, set_request w (set_session r s))
          | Ok b =>
              (Returned,
               send_user_logged_in user
                 (set_request w
                    {| request_session := Some (auth_session user b s);
                       request_user := ModelUser user;
                       request_message_level := request_message_level r;
                       request_messages := request_messages r |}))
          end
      end
  end.

(** [logout(request)]: the session is flushed and [request.user] becomes
    [AnonymousUser()]. *)
Definition logout (w : World) : Res * World :=
  let r := request w in
  match request_session r with
  | None => (Raised AttributeError, w)
  | Some _ =>
      (Returned,
       set_request w
         {| request_session := Some ∅;
            request_user := AnonymousUser;
            request_message_level := request_message_level r;
            request_messages := request_messages r |})
  end.

(** The row of the user model with this pk. *)
Definition row (z : Z) : option User :=
  List.find (fun u => bool_decide (pk u = Some z)) (User_objects dj).

(** [get_user_model().objects.get(pk=text)]: the text is converted to
    the integer it renders, and the instance loaded has no [backend]
    attribute. *)
Definition objects_get (text : string) : Result User :=
  match parse_int text with
  | None => Raise ValueError
  | Some z =>
      match row z with
      | Some u => Ok (set_backend u None)
      | None => Raise DoesNotExist
      end
  end.
End WithSettings.

End Auth.

(** ** loginas/utils.py *)

Module Utils.
Import Text Dispatch Framework Settings Auth.

(** The state [login_as] leaves: how it ended, the user object it was
    given, and the world. *)
Record Outcome := {
  result : Res;
  user_after : User;
  world_after : World
}.

(** The part of [no_update_last_login] before the [yield]; it returns
    [was_connected] and [was_connected_id]. *)
Definition no_update_last_login_enter (receivers : Receivers)
    : bool * bool * Receivers :=
  let '(was_connected, receivers) :=
    disconnect update_last_login None None receivers in
  let '(was_connected_id, receivers) :=
    if negb was_connected
    then disconnect update_last_login None (Some "update_last_login") receivers
    else (false, receivers) in
  (was_connected, was_connected_id, receivers).

(** The part after the [yield]. *)
Definition no_update_last_login_exit (was_connected was_connected_id : bool)
    (receivers : Receivers) : Receivers :=
  if was_connected then
    connect update_last_login None None receivers
  else if was_connected_id then
    connect update_last_login None (Some "update_last_login") receivers
  else receivers.

(** [with no_update_last_login(): body].  The generator has no
    [try]/[finally]: when the body raises, the exception is thrown into
    the generator at the [yield] and the code after it does not run. *)
Definition no_update_last_login (body : World -> Res * World) (w : World)
    : Res * World :=
  let '(was_connected, was_connected_id, receivers) :=
    no_update_last_login_enter (user_logged_in w) in
  let '(r, w') := body (set_receivers w receivers) in
  match r with
  | Raised e => (Raised e, w')
  | Returned =>
      (Returned,
       set_receivers w'
         (no_update_last_login_exit was_connected was_connected_id
            (user_logged_in w')))
  end.

Section WithSettings.
Variable la : la_settings.
Variable dj : django_settings.

(** The [for backend in AUTHENTICATION_BACKENDS] loop of [login_as]:
    the backend it breaks on, or [None] when it runs into its [else]. *)
Fixpoint find_backend (user : User) (backends : list string) : option string :=
  match backends with
  | [] => None
  | b :: rest =>
      match get_user (load_backend dj b) with
      | None => find_backend user rest
      | Some load =>
          if user_eq user (load (pk user)) then Some b
          else find_backend user rest
      end
  end.

(** Lines 50-60, "Find a suitable backend": the user with its
    [backend] attribute, or the exception of the loop's [else]. *)
Definition suitable_backend (user : User) : Result User :=
  match backend user with
  | Some _ => Ok user
  | None =>
      match find_backend user (AUTHENTICATION_BACKENDS dj) with
      | Some b => Ok (set_backend user (Some b))
      | None => Raise ImproperlyConfigured
      end
  end.

(** The row [log_action] is called with. *)
Definition audit_entry (original_user_pk : option Z) (original : RequestUser)
    (user : User) : LogEntry :=
  {| user_id := original_user_pk;
     content_type_id := User_content_type dj;
     object_id := pk user;
     object_repr := str_user user;
     change_message :=
       "User " ++ str_request_user original ++ " logged in as "
         ++ str_user user ++ ".";
     action_flag := CHANGE |}.

(** Lines 78-82. *)
Definition login_with_settings (user : User) (w : World) : Res * World :=
  if UPDATE_LAST_LOGIN la then login dj user w
  else no_update_last_login (login dj user) w.

Definition login_as (user : User) (w : World) (store_original_user : bool)
    (now : Q) : Outcome :=
  let original_user_pk := request_user_pk (request_user (request w)) in
  (* Find a suitable backend. *)
  match suitable_backend user with
  | Raise e => {| result := Raised e; user_after := user; world_after := w |}
  | Ok user =>
      (* Add admin audit log entry *)
      let w :=
        if pk_truthy original_user_pk then
          log_action
            (audit_entry original_user_pk (request_user (request w)) user) w
        else w in
      (* Log the user in. *)
      match backend user with
      | None => {| result := Returned; user_after := user; world_after := w |}
      | Some _ =>
          let '(r, w) := login_with_settings user w in
          match r with
          | Raised e => {| result := Raised e; user_after := user; world_after := w |}
          | Returned =>
              (* Set a flag on the session *)
              if store_original_user then
                let w :=
                  add_message WARNING (MESSAGE_LOGIN_SWITCH la (username user))
                    (MESSAGE_EXTRA_TAGS la) w in
                match request_session (request w) with
                | None =>
                    {| result := Raised AttributeError; user_after := user;
                       world_after := w |}
                | Some s =>
                    {| result := Returned; user_after := user;
                       world_after :=
                         set_request w
                           (set_session (request w)
                              (<[USER_SESSION_FLAG la :=
                                   Signing.sign (signature dj)
                                     (str_pk original_user_pk) now]> s)) |}
                end
              else {| result := Returned; user_after := user; world_after := w |}
          end
      end
  end.

(** The body of the [try] of [restore_original_login]. *)
Definition restore_from (original_session : string) (w : World) (now : Q)
    : Res * World :=
  match Signing.unsign (signature dj) original_session
          (Signing.total_seconds_of_days (USER_SESSION_DAYS_TIMESTAMP la)) now with
  | Raise e => (Raised e, w)
  | Ok original_user_pk =>
      match objects_get dj original_user_pk with
      | Raise e => (Raised e, w)
      | Ok user =>
          let w :=
            add_message INFO (MESSAGE_LOGIN_REVERT la (username user))
              (MESSAGE_EXTRA_TAGS la) w in
          let o := login_as user w false now in
          match result o with
          | Raised e => (Raised e, world_after o)
          | Returned =>
              let w := world_after o in
              match request_session (request w) with
              | None => (Raised AttributeError, w)
              | Some s =>
                  match s !! USER_SESSION_FLAG la with
                  | Some _ =>
                      (Returned,
                       set_request w
                         (set_session (request w) (delete (USER_SESSION_FLAG la) s)))
                  | None => (Returned, w)
                  end
              end
          end
      end
  end.

(** [except SignatureExpired: pass] *)
Definition except_SignatureExpired (o : Res * World) : Res * World :=
  match o with
  | (Raised SignatureExpired, w) => (Returned, w)
  | _ => o
  end.

Definition restore_original_login (w : World) (now : Q) : Res * World :=
  match request_session (request w) with
  | None => (Raised AttributeError, w)
  | Some s =>
      let original_session := s !! USER_SESSION_FLAG la in
      let '(r, w) := logout w in
      match r with
      | Raised e => (Raised e, w)
      | Returned =>
          match original_session with
          | None => (Returned, w)
          | Some token =>
              if negb (truthy token) then (Returned, w)
              else except_SignatureExpired (restore_from token w now)
          end
      end
  end.

(** [is_impersonated_session(request)] on a request of the framework,
    whose [session], when there is one, is a session store. *)
Definition is_impersonated_session (r : Request) : bool :=
  match request_session r with
  | None => false
  | Some s => bool_decide (is_Some (s !! USER_SESSION_FLAG la))
  end.
End WithSettings.

End Utils.

(** ** The request as any object *)

Module AnyRequest.
Import Framework Settings.

(** What a request object holds under the name [session]: a session
    store, or a value that does not support [in], such as [None]. *)
Inductive SessionAttribute :=
| SessionStore (data : gmap string string)
| NoContainer.

(** A request object, as far as [is_impersonated_session] looks at it;
    [session_attribute] is [None] when the object has no attribute
    [session]. *)
Record RequestObject := { session_attribute : option SessionAttribute }.

(** [key in value] *)
Definition contains (key : string) (value : SessionAttribute) : Result bool :=
  match value with
  | SessionStore data => Ok (bool_decide (is_Some (data !! key)))
  | NoContainer => Raise TypeError
  end.

(** [is_impersonated_session(request)] on any object:
    [hasattr(request, 'session') and USER_SESSION_FLAG in request.session]. *)
Definition is_impersonated_session (la : la_settings) (request : RequestObject)
    : Result bool :=
  match session_attribute request with
  | None => Ok false
  | Some value => contains (USER_SESSION_FLAG la) value
  end.


End AnyRequest.

(** ** Vocabulary of the statements *)

Module Spec.
Import Text Dispatch Framework Settings Auth Utils.

(** A backend the loop of [login_as] accepts for [user]: it exposes
    [get_user], and what it loads for the user's pk equals the user. *)
Definition suitable (dj : django_settings) (user : User) (b : string) : Prop :=
  exists load,
    get_user (load_backend dj b) = Some load
    /\ user_eq user (load (pk user)) = true.

(** The keys of the session that [login] owns. *)
Definition auth_keys : list string :=
  [SESSION_KEY; BACKEND_SESSION_KEY; HASH_SESSION_KEY].

(** The flag the session of a request carries, if any. *)
Definition session_flag (la : la_settings) (r : Request) : option string :=
  match request_session r with
  | Some s => s !! USER_SESSION_FLAG la
  | None => None
  end.

(** The two connections [no_update_last_login] looks for. *)
Definition by_receiver : Connection :=
  {| conn_receiver := update_last_login; conn_sender := None; conn_uid := None |}.

Definition by_dispatch_uid : Connection :=
  {| conn_receiver := update_last_login; conn_sender := None;
     conn_uid := Some "update_last_login" |}.

(** The receivers after entering and leaving [no_update_last_login]
    around a body that leaves them alone. *)
Definition reconnected (receivers : Receivers) : Receivers :=
  let '(was_connected, was_connected_id, receivers) :=
    no_update_last_login_enter receivers in
  no_update_last_login_exit was_connected was_connected_id receivers.

End Spec.

(** ** A small project to run the helpers on *)

Module Demo.
Import Text Base62 Dispatch Framework Settings Auth Utils.

Definition alice : User :=
  {| pk := Some 1; username := "alice"; backend := None;
     session_auth_hash := "h-alice" |}.

Definition bob : User :=
  {| pk := Some 2; username := "bob"; backend := None;
     session_auth_hash := "h-bob" |}.

Definition ModelBackend : string := "django.contrib.auth.backends.ModelBackend".

(** A stand-in for the MAC: a checksum of the text, in base 62. *)
Fixpoint checksum (s : string) (acc : Z) : Z :=
  match s with
  | EmptyString => acc
  | String c rest => checksum rest ((acc * 31 + Z.of_nat (nat_of_ascii c)) mod 1000003)
  end.

Definition mac (value : string) : string := b62_encode (checksum value 7).

Definition table : list User := [alice; bob].

(** [ModelBackend.get_user]: the row with this pk, if any. *)
Definition model_backend : Backend :=
  {| get_user :=
       Some (fun p => List.find (fun u => bool_decide (pk u = p)) table) |}.

Definition dj : django_settings :=
  {| AUTHENTICATION_BACKENDS := [ModelBackend];
     load_backend := fun _ => model_backend;
     signature := mac;
     User_objects := table;
     User_content_type := 4 |}.

(** A project whose only backend knows [bob] and nobody else. *)
Definition bob_backend : Backend :=
  {| get_user :=
       Some (fun p => if bool_decide (p = Some 2) then Some bob else None) |}.

Definition dj_bob_only : django_settings :=
  {| AUTHENTICATION_BACKENDS := [ModelBackend];
     load_backend := fun _ => bob_backend;
     signature := mac;
     User_objects := table;
     User_content_type := 4 |}.

(** The same project after [alice]'s account was deleted. *)
Definition dj_without_alice : django_settings :=
  {| AUTHENTICATION_BACKENDS := [ModelBackend];
     load_backend := fun _ => model_backend;
     signature := mac;
     User_objects := [bob];
     User_content_type := 4 |}.

Definition la : la_settings :=
  {| USER_SESSION_FLAG := "loginas_from_user";
     UPDATE_LAST_LOGIN := false;
     USER_SESSION_DAYS_TIMESTAMP := 2;
     MESSAGE_LOGIN_SWITCH := fun name => "You are now logged in as " ++ name;
     MESSAGE_LOGIN_REVERT := fun name => "You are now logged back in as " ++ name;
     MESSAGE_EXTRA_TAGS := "" |}.

Definition la_update : la_settings :=
  {| USER_SESSION_FLAG := "loginas_from_user";
     UPDATE_LAST_LOGIN := true;
     USER_SESSION_DAYS_TIMESTAMP := 2;
     MESSAGE_LOGIN_SWITCH := fun name => "You are now logged in as " ++ name;
     MESSAGE_LOGIN_REVERT := fun name => "You are now logged back in as " ++ name;
     MESSAGE_EXTRA_TAGS := "" |}.

(** The receivers as [django.contrib.auth] connects them. *)
Definition receivers0 : Receivers :=
  [{| conn_receiver := update_last_login; conn_sender := None;
      conn_uid := Some "update_last_login" |};
   {| conn_receiver := other_receiver "audit"; conn_sender := None;
      conn_uid := None |}].

(** [alice] is logged in. *)
Definition alice_session : gmap string string :=
  <[HASH_SESSION_KEY := "h-alice"]>
    (<[BACKEND_SESSION_KEY := ModelBackend]> (<[SESSION_KEY := "1"]> ∅)).

Definition alice_world : World :=
  {| request :=
       {| request_session := Some alice_session;
          request_user := ModelUser (set_backend alice (Some ModelBackend));
          request_message_level := 20;
          request_messages := [] |};
     LogEntry_objects := [];
     user_logged_in := receivers0;
     dispatched := [] |}.

(** Nobody is logged in. *)
Definition anonymous_world : World :=
  {| request :=
       {| request_session := Some ∅;
          request_user := AnonymousUser;
          request_message_level := 20;
          request_messages := [] |};
     LogEntry_objects := [];
     user_logged_in := receivers0;
     dispatched := [] |}.


Definition t0 : Q := 1700000000 # 1.

(** [alice] has logged in as [bob] at [t0]. *)
Definition impersonating_world : World :=
  world_after (login_as la dj bob alice_world true t0).

Definition t1 : Q := 1700003600 # 1.

(** More than two days after [t0]. *)
Definition t2 : Q := 1700300000 # 1.

End Demo.

(** ** The states a call goes through *)

Module Runs.
Import Text Dispatch Framework Settings Auth Utils Spec.

(** The world after [logout(request)]. *)
Definition logged_out (w : World) : World :=
  set_request w
    {| request_session := Some ∅;
       request_user := AnonymousUser;
       request_message_level := request_message_level (request w);
       request_messages := request_messages (request w) |}.

(** What [add_message] queues on a storage of this recording level. *)
Definition recorded (recording_level lvl : Z) (text tags : string)
    : list Message :=
  if truthy text && (recording_level <=? lvl)
  then [{| level := lvl; message := text; extra_tags := tags |}]
  else [].

(** The receivers while the body of [no_update_last_login] runs. *)
Definition entered (receivers : Receivers) : Receivers :=
  snd (no_update_last_login_enter receivers).

(** The receivers of [user_logged_in] while [login_as] logs the user in. *)
Definition listening (la : la_settings) (receivers : Receivers) : Receivers :=
  if UPDATE_LAST_LOGIN la then receivers else entered receivers.

(** The calls one [send] of [user_logged_in] makes for [user]. *)
Definition signal_calls (user : User) (receivers : Receivers)
    : list (Receiver * option Z) :=
  map (fun r => (r, pk user)) (live_receivers User_class receivers).

(** Every connection of [update_last_login] is one of the two that
    [no_update_last_login] looks for. *)
Definition known_connections (receivers : Receivers) : Prop :=
  forall c, In c receivers -> conn_receiver c = update_last_login ->
            c = by_receiver \/ c = by_dispatch_uid.

End Runs.

(** ** More situations of the small project *)

Module Cases.
Import Text Base62 Dispatch Framework Settings Auth Utils Spec Demo.

(** A user that is no row of the table but carries a backend attribute. *)
Definition carol : User :=
  {| pk := Some 3; username := "carol"; backend := Some ModelBackend;
     session_auth_hash := "h-carol" |}.

(** A request built by hand, as a test does: [request.user] is [alice],
    and there is no session. *)
Definition factory_world : World :=
  {| request :=
       {| request_session := None;
          request_user := ModelUser (set_backend alice (Some ModelBackend));
          request_message_level := 20;
          request_messages := [] |};
     LogEntry_objects := [];
     user_logged_in := receivers0;
     dispatched := [] |}.

(** [alice]'s request again, with a storage that records errors only
    ([messages.set_level(request, messages.ERROR)]). *)
Definition quiet_world : World :=
  {| request :=
       {| request_session := Some alice_session;
          request_user := ModelUser (set_backend alice (Some ModelBackend));
          request_message_level := 40;
          request_messages := [] |};
     LogEntry_objects := [];
     user_logged_in := receivers0;
     dispatched := [] |}.

(** [update_last_login] connected both ways. *)
Definition receivers_both : Receivers :=
  [by_receiver; by_dispatch_uid;
   {| conn_receiver := other_receiver "audit"; conn_sender := None;
      conn_uid := None |}].

Definition both_world : World :=
  {| request := request alice_world;
     LogEntry_objects := [];
     user_logged_in := receivers_both;
     dispatched := [] |}.


(** A session whose flag is the signer's, for the text [+1]. *)
Definition plus_world : World :=
  {| request :=
       {| request_session :=
            Some (<[USER_SESSION_FLAG la := Signing.sign mac "+1" t0]>
                    (auth_session bob ModelBackend ∅));
          request_user := ModelUser (set_backend bob (Some ModelBackend));
          request_message_level := 20;
          request_messages := [] |};
     LogEntry_objects := [];
     user_logged_in := receivers0;
     dispatched := [] |}.

(** A session whose flag names [alice] under a MAC that is not the
    signer's. *)
Definition forged_world : World :=
  {| request :=
       {| request_session :=
            Some (<[USER_SESSION_FLAG la := "1:1r31eq:forged"]>
                    (auth_session bob ModelBackend ∅));
          request_user := ModelUser (set_backend bob (Some ModelBackend));
          request_message_level := 20;
          request_messages := [] |};
     LogEntry_objects := [];
     user_logged_in := receivers0;
     dispatched := [] |}.

End Cases.

(** * Proofs *)

(** * Facts about the text helpers *)

Module TextFacts.
Import Text.

Lemma append_cons (c : ascii) (a b : string) :
  String c a ++ b = String c (a ++ b).
Proof. reflexivity. Qed.

Lemma append_nil (b : string) : "" ++ b = b.
Proof. reflexivity. Qed.

Lemma append_assoc (a b c : string) : (a ++ b) ++ c = a ++ (b ++ c).
Proof.
  induction a as [|x a IH]; [reflexivity|].
  rewrite !append_cons. now rewrite IH.
Qed.

Lemma rsplit_sep_free (s : string) : sep_free s = true -> rsplit s = None.
Proof.
  induction s as [|c rest IH]; simpl; [reflexivity|].
  intros [Hc Hrest]%andb_true_iff.
  rewrite (IH Hrest).
  apply negb_true_iff in Hc. now rewrite Hc.
Qed.

(** Cutting [a:b] at the last separator gives back [a] and [b] when [b]
    has no separator. *)
Lemma rsplit_append (a b : string) :
  sep_free b = true -> rsplit (a ++ String sep b) = Some (a, b).
Proof.
  intros Hb. induction a as [|c a IH].
  - rewrite append_nil. simpl. now rewrite (rsplit_sep_free b Hb).
  - rewrite append_cons. simpl. now rewrite IH.
Qed.

Lemma sep_free_append (a b : string) :
  sep_free (a ++ b) = sep_free a && sep_free b.
Proof.
  induction a as [|c a IH]; [reflexivity|].
  rewrite append_cons. simpl. now rewrite IH, andb_assoc.
Qed.

Lemma digit_plain (c : ascii) :
  is_digit c = true ->
  is_space c = false /\ c <> "-"%char /\ c <> "+"%char /\ Ascii.eqb c "_" = false.
Proof.
  destruct c as [[] [] [] [] [] [] [] []]; intros H;
    try discriminate H; repeat split; discriminate.
Qed.

Lemma string_of_uint_digits (d : Decimal.uint) :
  all_digits (NilEmpty.string_of_uint d) = true.
Proof. induction d; simpl; auto. Qed.

Lemma lstrip_digits (s : string) : all_digits s = true -> lstrip s = s.
Proof.
  destruct s as [|c rest]; simpl; [reflexivity|].
  intros [Hc _]%andb_true_iff. now rewrite (proj1 (digit_plain c Hc)).
Qed.

Lemma rstrip_digits (s : string) : all_digits s = true -> rstrip s = s.
Proof.
  induction s as [|c rest IH]; simpl; [reflexivity|].
  intros [Hc Hrest]%andb_true_iff. rewrite (IH Hrest).
  destruct rest; [|reflexivity]. now rewrite (proj1 (digit_plain c Hc)).
Qed.

Lemma ungroup_digits (s : string) (after_digit : bool) :
  all_digits s = true -> s <> "" \/ after_digit = true ->
  ungroup s after_digit = Some s.
Proof.
  revert after_digit. induction s as [|c rest IH]; intros b; simpl.
  - intros _ [H| ->]; [contradiction|reflexivity].
  - intros [Hc Hrest]%andb_true_iff _. rewrite Hc.
    rewrite IH by auto. reflexivity.
Qed.

(** [int()] reads the digits [str()] writes, with or without a sign. *)
Lemma parse_digits (d : Decimal.uint) :
  d <> Decimal.Nil ->
  parse_int (NilEmpty.string_of_uint d) = Some (Z.of_uint d)
  /\ parse_int (String "-" (NilEmpty.string_of_uint d)) = Some (- Z.of_uint d).
Proof.
  intros Hd.
  pose proof (string_of_uint_digits d) as Hall.
  pose proof (NilZero.usu d Hd) as Husu.
  assert (Hstr : NilZero.string_of_uint d = NilEmpty.string_of_uint d)
    by (destruct d; [contradiction|reflexivity..]).
  rewrite Hstr in Husu.
  set (ds := NilEmpty.string_of_uint d) in *.
  assert (Hne : ds <> "") by (subst ds; destruct d; [contradiction|discriminate..]).
  split.
  - unfold parse_int, strip. rewrite (lstrip_digits ds Hall), (rstrip_digits ds Hall).
    destruct ds as [|c rest] eqn:E; [contradiction|].
    pose proof Hall as Hc. simpl in Hc. apply andb_true_iff in Hc as [Hc _].
    destruct (digit_plain c Hc) as (_ & Hminus & Hplus & _).
    assert (Hbody : match String c rest with
                    | String "-" r => (true, r)
                    | String "+" r => (false, r)
                    | _ => (false, String c rest)
                    end = (false, String c rest)).
    { destruct c as [[] [] [] [] [] [] [] []]; try reflexivity; congruence. }
    rewrite Hbody. rewrite (ungroup_digits _ false Hall) by (left; discriminate).
    now rewrite Husu.
  - unfold parse_int, strip.
    assert (Hl : lstrip (String "-" ds) = String "-" ds) by reflexivity.
    rewrite Hl.
    assert (Hr : rstrip (String "-" ds) = String "-" ds).
    { simpl. rewrite (rstrip_digits ds Hall). destruct ds; [contradiction|reflexivity]. }
    rewrite Hr. rewrite (ungroup_digits ds false Hall) by (left; exact Hne).
    now rewrite Husu.
Qed.

(** [int(str(z)) == z] *)
Lemma parse_int_str_int (z : Z) : parse_int (str_int z) = Some z.
Proof.
  unfold str_int. pose proof (DecimalZ.of_to z) as Hz.
  destruct z as [|p|p]; [reflexivity| |];
    simpl in *;
    assert (Hd : Pos.to_uint p <> Decimal.Nil)
      by apply DecimalPos.Unsigned.to_uint_nonnil;
    destruct (parse_digits _ Hd) as [Hpos Hneg];
    replace (NilZero.string_of_uint (Pos.to_uint p))
      with (NilEmpty.string_of_uint (Pos.to_uint p))
      by (destruct (Pos.to_uint p); [contradiction|reflexivity..]);
    [rewrite Hpos | rewrite Hneg]; now f_equal.
Qed.

(** What [int()] reads and what it refuses. *)
Example parse_int_reads :
  parse_int "+1" = Some 1 /\ parse_int " 1" = Some 1
  /\ parse_int "1_0" = Some 10 /\ parse_int "01" = Some 1
  /\ parse_int "-12 " = Some (-12) /\ parse_int "-0" = Some 0.
Proof. repeat split. Qed.

Example parse_int_refuses :
  parse_int "" = None /\ parse_int "+" = None /\ parse_int "1__0" = None
  /\ parse_int "_1" = None /\ parse_int "1_" = None
  /\ parse_int "- 1" = None /\ parse_int "1 0" = None
  /\ parse_int "+-1" = None /\ parse_int "1.0" = None.
Proof. repeat split. Qed.

Lemma parse_int_None : parse_int "None" = None.
Proof. reflexivity. Qed.

End TextFacts.

Module Base62Facts.
Import Text Base62.

Lemma digit_of_nat (n : nat) :
  (n < 62)%nat ->
  index (digit (Z.of_nat n)) BASE62_ALPHABET = Some (Z.of_nat n)
  /\ Ascii.eqb (digit (Z.of_nat n)) sep = false.
Proof.
  intros Hn. unfold digit. rewrite Nat2Z.id.
  do 62 (destruct n as [|n]; [split; reflexivity|]).
  lia.
Qed.

Lemma index_digit (r : Z) :
  0 <= r < 62 -> index (digit r) BASE62_ALPHABET = Some r.
Proof.
  intros Hr. rewrite <- (Z2Nat.id r) by lia.
  apply digit_of_nat. lia.
Qed.

Lemma digit_not_sep (r : Z) : 0 <= r < 62 -> Ascii.eqb (digit r) sep = false.
Proof.
  intros Hr. rewrite <- (Z2Nat.id r) by lia.
  apply digit_of_nat. lia.
Qed.

Lemma b62_value_append (a b : string) (d : Z) :
  b62_value (a ++ b) d =
  match b62_value a d with Some d' => b62_value b d' | None => None end.
Proof.
  revert d. induction a as [|c a IH]; intros d; [reflexivity|].
  rewrite TextFacts.append_cons. cbn [b62_value].
  destruct (index c BASE62_ALPHABET); [apply IH | reflexivity].
Qed.

Lemma b62_loop_append (fuel : nat) (s : Z) (encoded : string) :
  b62_loop fuel s encoded = b62_loop fuel s "" ++ encoded.
Proof.
  revert s encoded. induction fuel as [|fuel IH]; intros s encoded; simpl.
  - reflexivity.
  - destruct (0 <? s); [|reflexivity].
    rewrite IH, (IH _ (String _ "")).
    now rewrite TextFacts.append_assoc.
Qed.

(** With a round for every bit of [s], the loop writes the base-62
    digits of [s]. *)
Lemma b62_value_loop (fuel : nat) (s : Z) :
  0 <= s < 2 ^ Z.of_nat fuel -> b62_value (b62_loop fuel s "") 0 = Some s.
Proof.
  revert s. induction fuel as [|fuel IH]; intros s Hs.
  - simpl in *. f_equal. lia.
  - simpl b62_loop. destruct (Z.ltb_spec 0 s) as [Hpos|Hzero].
    + rewrite b62_loop_append, b62_value_append.
      rewrite IH.
      * cbn [b62_value]. rewrite index_digit by (apply Z.mod_pos_bound; lia).
        f_equal. pose proof (Z.div_mod s 62). lia.
      * rewrite Nat2Z.inj_succ, Z.pow_succ_r in Hs by lia.
        split; [apply Z.div_pos; lia|].
        apply Z.div_lt_upper_bound; lia.
    + simpl. f_equal. lia.
Qed.

Lemma b62_loop_sep_free (fuel : nat) (s : Z) (encoded : string) :
  sep_free encoded = true -> sep_free (b62_loop fuel s encoded) = true.
Proof.
  revert s encoded. induction fuel as [|fuel IH]; intros s encoded He; simpl.
  - assumption.
  - destruct (0 <? s); [|assumption].
    apply IH. simpl.
    rewrite digit_not_sep by (apply Z.mod_pos_bound; lia).
    assumption.
Qed.

Lemma fuel_enough (s : Z) :
  0 < s -> 0 <= s < 2 ^ Z.of_nat (S (Z.to_nat (Z.log2 s))).
Proof.
  intros Hs. rewrite Nat2Z.inj_succ, Z2Nat.id by apply Z.log2_nonneg.
  pose proof (Z.log2_spec s Hs). lia.
Qed.

(** A timestamp never contains the separator of the signer. *)
Lemma b62_encode_sep_free (s : Z) : sep_free (b62_encode s) = true.
Proof.
  unfold b62_encode. destruct (s =? 0); [reflexivity|].
  rewrite TextFacts.sep_free_append, b62_loop_sep_free by reflexivity.
  now destruct (s <? 0).
Qed.

Lemma b62_decode_digits (t : string) (s : Z) :
  0 < s -> b62_value t 0 = Some s -> b62_decode t = Ok s.
Proof.
  intros Hs Ht. unfold b62_decode.
  destruct (String.eqb_spec t "0") as [->|_].
  - vm_compute in Ht. injection Ht as <-. lia.
  - destruct t as [|c rest].
    + cbn [b62_value] in Ht. injection Ht as <-. lia.
    + destruct (Ascii.eqb_spec c "-"%char) as [->|_].
      * cbn [b62_value] in Ht.
        change (index "-" BASE62_ALPHABET) with (@None Z) in Ht. discriminate.
      * now rewrite Ht.
Qed.

(** [b62_decode(b62_encode(s)) == s] *)
Lemma b62_decode_encode (s : Z) : b62_decode (b62_encode s) = Ok s.
Proof.
  unfold b62_encode. destruct (Z.eqb_spec s 0) as [->|Hne]; [reflexivity|].
  destruct (Z.ltb_spec s 0) as [Hneg|Hpos].
  - assert (Hv := b62_value_loop _ _ (fuel_enough (Z.abs s) ltac:(lia))).
    rewrite TextFacts.append_cons, TextFacts.append_nil. unfold b62_decode.
    cbn [String.eqb Ascii.eqb Bool.eqb].
    rewrite Hv. f_equal. lia.
  - rewrite TextFacts.append_nil. apply b62_decode_digits; [lia|].
    rewrite Z.abs_eq by lia.
    apply b62_value_loop, fuel_enough. lia.
Qed.

End Base62Facts.

Module SigningFacts.
Import Text Base62 Signing.

Section WithKey.
Variable signature : string -> string.
Hypothesis signature_text : forall v, sep_free (signature v) = true.

Lemma Signer_unsign_sign (value : string) :
  Signer_unsign signature (Signer_sign signature value) = Ok value.
Proof.
  unfold Signer_unsign, Signer_sign.
  rewrite TextFacts.rsplit_append by apply signature_text.
  now rewrite String.eqb_refl.
Qed.

(** A value signed at [now] is read back at [later] unless it is older
    than [max_age] by then. *)
Lemma unsign_sign (value : string) (max_age now later : Q) :
  (later - inject_Z (int_of_time now) <= max_age)%Q ->
  unsign signature (sign signature value now) max_age later = Ok value.
Proof.
  intros Hage. unfold unsign, sign.
  rewrite Signer_unsign_sign.
  rewrite TextFacts.rsplit_append by apply Base62Facts.b62_encode_sep_free.
  unfold timestamp. rewrite Base62Facts.b62_decode_encode.
  apply Qle_bool_iff in Hage. now rewrite Hage.
Qed.

Lemma unsign_expired (value : string) (max_age now later : Q) :
  (max_age < later - inject_Z (int_of_time now))%Q ->
  unsign signature (sign signature value now) max_age later
  = Raise SignatureExpired.
Proof.
  intros Hage. unfold unsign, sign.
  rewrite Signer_unsign_sign.
  rewrite TextFacts.rsplit_append by apply Base62Facts.b62_encode_sep_free.
  unfold timestamp. rewrite Base62Facts.b62_decode_encode.
  destruct (Qle_bool _ max_age) eqn:Hle; [|reflexivity].
  apply Qle_bool_iff in Hle. exfalso. apply (Qlt_not_le _ _ Hage Hle).
Qed.
End WithKey.

End SigningFacts.

Module DispatchFacts.
Import Dispatch.

Lemma has_key_true (k : LookupKey) (rs : Receivers) :
  has_key k rs = true <-> exists c, In c rs /\ key_of c = k.
Proof.
  unfold has_key. rewrite existsb_exists.
  split; intros (c & Hin & Hk); exists c; split; auto.
  - now apply bool_decide_eq_true in Hk.
  - now apply bool_decide_eq_true.
Qed.

Lemma has_key_app (k : LookupKey) (rs rs' : Receivers) :
  has_key k (rs ++ rs')%list = has_key k rs || has_key k rs'.
Proof. apply existsb_app. Qed.

(** [disconnect] answers whether the key was connected. *)
Lemma remove_key_found (k : LookupKey) (rs : Receivers) :
  fst (remove_key k rs) = has_key k rs.
Proof.
  induction rs as [|c rs IH]; simpl; [reflexivity|].
  destruct (bool_decide (key_of c = k)); [reflexivity|].
  destruct (remove_key k rs). simpl in *. assumption.
Qed.

Lemma remove_key_absent (k : LookupKey) (rs : Receivers) :
  has_key k rs = false -> snd (remove_key k rs) = rs.
Proof.
  induction rs as [|c rs IH]; simpl; [reflexivity|].
  destruct (bool_decide (key_of c = k)); [discriminate|].
  simpl. intros H. specialize (IH H).
  destruct (remove_key k rs). simpl in *. now f_equal.
Qed.

(** Other keys are not touched by [disconnect]. *)
Lemma remove_key_other (k k' : LookupKey) (rs : Receivers) :
  k' <> k -> has_key k' (snd (remove_key k rs)) = has_key k' rs.
Proof.
  intros Hne. induction rs as [|c rs IH]; simpl; [reflexivity|].
  destruct (bool_decide_reflect (key_of c = k)) as [Hk|Hk]; simpl.
  - rewrite bool_decide_eq_false_2; [reflexivity|congruence].
  - destruct (remove_key k rs). simpl in *. now rewrite IH.
Qed.

(** What [disconnect] takes away was under the key; the rest stays. *)
Lemma remove_key_In (k : LookupKey) (rs : Receivers) (c : Connection) :
  In c rs -> In c (snd (remove_key k rs)) \/ key_of c = k.
Proof.
  induction rs as [|d rs IH]; simpl; [tauto|].
  destruct (bool_decide_reflect (key_of d = k)) as [Hk|Hk]; simpl.
  - intros [->|H]; auto.
  - destruct (remove_key k rs). simpl in *.
    intros [->|H]; [auto|]. destruct (IH H); auto.
Qed.

Lemma remove_key_subset (k : LookupKey) (rs : Receivers) (c : Connection) :
  In c (snd (remove_key k rs)) -> In c rs.
Proof.
  induction rs as [|d rs IH]; simpl; [tauto|].
  destruct (bool_decide (key_of d = k)); simpl; [auto|].
  destruct (remove_key k rs). simpl in *. intros [->|H]; auto.
Qed.

(** The entry [disconnect] deletes. *)
Lemma remove_key_taken (k : LookupKey) (rs : Receivers) :
  has_key k rs = true ->
  exists c, In c rs /\ key_of c = k /\
    forall d, In d rs -> d = c \/ In d (snd (remove_key k rs)).
Proof.
  induction rs as [|e rs IH]; simpl; [discriminate|].
  destruct (bool_decide_reflect (key_of e = k)) as [Hk|Hk]; simpl.
  - intros _. exists e. repeat split; auto. intros d [->|H]; auto.
  - intros H. destruct (IH H) as (c & Hin & Hc & Hrest).
    exists c. repeat split; auto.
    destruct (remove_key k rs). simpl in *.
    intros d [->|Hd]; auto. destruct (Hrest d Hd); auto.
Qed.

Lemma has_key_connect (k : LookupKey) (r : Receiver) (s u : option string)
    (rs : Receivers) :
  has_key k (connect r s u rs)
  = has_key k rs || bool_decide (lookup_key r s u = k).
Proof.
  unfold connect. destruct (has_key (lookup_key r s u) rs) eqn:Hk.
  - destruct (bool_decide_reflect (lookup_key r s u = k)) as [<-|_].
    + now rewrite Hk.
    + now rewrite orb_false_r.
  - rewrite has_key_app. simpl. unfold key_of. simpl.
    now rewrite orb_false_r.
Qed.



Lemma connect_connected (r : Receiver) (s u : option string) (rs : Receivers) :
  has_key (lookup_key r s u) (connect r s u rs) = true.
Proof.
  rewrite has_key_connect, bool_decide_eq_true_2 by reflexivity.
  apply orb_true_r.
Qed.

(** The key of a connection without a dispatch uid names its receiver. *)
Lemma key_by_id (c : Connection) (r : Receiver) (s : option string) :
  key_of c = (ById r, s) ->
  c = {| conn_receiver := r; conn_sender := s; conn_uid := None |}.
Proof.
  destruct c as [r' s' [u|]]; unfold key_of, lookup_key; simpl;
    intros [= ]; subst; reflexivity.
Qed.


End DispatchFacts.

Module AuthFacts.
Import Text Dispatch Framework Settings Auth.

Section WithSettings.
Variable dj : django_settings.

Lemma login_no_session (user : User) (w : World) :
  request_session (request w) = None ->
  login dj user w = (Raised AttributeError, w).
Proof. intros H. unfold login. now rewrite H. Qed.

(** With a session whose stored id reads as a pk, and a backend on the
    user, [login] returns. *)
Lemma login_returns (user : User) (w : World) (s0 s : gmap string string)
    (b : string) :
  request_session (request w) = Some s0 ->
  session_for user s0 = Ok s ->
  backend user = Some b ->
  login dj user w =
  (Returned,
   send_user_logged_in user
     (set_request w
        {| request_session := Some (auth_session user b s);
           request_user := ModelUser user;
           request_message_level := request_message_level (request w);
           request_messages := request_messages (request w) |})).
Proof.
  intros Hs0 Hs Hb. unfold login, backend_for. now rewrite Hs0, Hs, Hb.
Qed.

(** A stored id that is no integer makes [login] raise before it changes
    anything. *)
Lemma login_unreadable (user : User) (w : World) (s0 : gmap string string)
    (e : Exn) :
  request_session (request w) = Some s0 ->
  session_for user s0 = Raise e ->
  login dj user w = (Raised e, w).
Proof. intros Hs0 Hs. unfold login. now rewrite Hs0, Hs. Qed.

Lemma session_for_empty (user : User) : session_for user ∅ = Ok ∅.
Proof. reflexivity. Qed.

(** [login] never changes who listens to [user_logged_in]. *)
Lemma login_receivers (user : User) (w : World) :
  user_logged_in (snd (login dj user w)) = user_logged_in w.
Proof.
  unfold login. destruct (request_session (request w)) as [s0|]; [|reflexivity].
  destruct (session_for user s0); [|reflexivity].
  destruct (backend_for dj user); reflexivity.
Qed.

Lemma objects_get_row (z : Z) (u : User) :
  row dj z = Some u -> objects_get dj (str_int z) = Ok (set_backend u None).
Proof.
  intros H. unfold objects_get.
  now rewrite TextFacts.parse_int_str_int, H.
Qed.

Lemma row_pk (z : Z) (u : User) : row dj z = Some u -> pk u = Some z.
Proof.
  unfold row. intros H. apply find_some in H as [_ H].
  now apply bool_decide_eq_true in H.
Qed.
End WithSettings.

End AuthFacts.

Module UtilsFacts.
Import Text Dispatch Framework Settings Auth Utils Spec.

(** *** The context manager *)


Lemma remove_key_unique (k : LookupKey) (rs : Receivers) :
  NoDup (map key_of rs) -> has_key k (snd (remove_key k rs)) = false.
Proof.
  induction rs as [|e rs IH]; simpl; [reflexivity|].
  intros Hnd. apply NoDup_cons in Hnd as [Hnotin Hnd].
  destruct (bool_decide_reflect (key_of e = k)) as [Hk|Hk]; simpl.
  - destruct (has_key k rs) eqn:Hhas; [|reflexivity].
    apply DispatchFacts.has_key_true in Hhas as (c & Hin & Hc).
    exfalso. apply Hnotin. rewrite Hk, <- Hc.
    apply list_elem_of_In, in_map, Hin.
  - specialize (IH Hnd). destruct (remove_key k rs). simpl in *.
    rewrite IH. now rewrite bool_decide_eq_false_2.
Qed.



End UtilsFacts.

Module LoginAsFacts.
Import Text Dispatch Framework Settings Auth Utils Spec Runs.

Section WithSettings.
Variable la : la_settings.
Variable dj : django_settings.

Lemma set_backend_same (user : User) (b : string) :
  backend user = Some b -> set_backend user (Some b) = user.
Proof. destruct user; simpl; now intros ->. Qed.

(** *** The backend loop *)

Lemma find_backend_None (user : User) (backends : list string) :
  find_backend dj user backends = None <->
  forall b, In b backends -> ~ suitable dj user b.
Proof.
  induction backends as [|b rest IH]; simpl.
  - split; [intros _ b [] | reflexivity].
  - destruct (get_user (load_backend dj b)) as [load|] eqn:Hload.
    + destruct (user_eq user (load (pk user))) eqn:Heq.
      * split; [discriminate|]. intros H. exfalso.
        apply (H b); [now left|]. exists load. auto.
      * rewrite IH. split.
        -- intros H b' [<-|Hin]; [|auto].
           intros (load' & Hl & He). congruence.
        -- intros H b' Hin. apply H. now right.
    + rewrite IH. split.
      * intros H b' [<-|Hin]; [|auto].
        intros (load' & Hl & _). congruence.
      * intros H b' Hin. apply H. now right.
Qed.

(** The loop breaks on the first suitable backend of the list. *)
Lemma find_backend_Some (user : User) (backends : list string) (b : string) :
  find_backend dj user backends = Some b ->
  exists before after,
    backends = (before ++ b :: after)%list
    /\ suitable dj user b
    /\ forall b', In b' before -> ~ suitable dj user b'.
Proof.
  revert b. induction backends as [|b0 rest IH]; simpl; [discriminate|].
  intros b.
  assert (Hskip : ~ suitable dj user b0 ->
                  find_backend dj user rest = Some b ->
                  exists before after,
                    b0 :: rest = (before ++ b :: after)%list
                    /\ suitable dj user b
                    /\ forall b', In b' before -> ~ suitable dj user b').
  { intros Hno Hrest. destruct (IH b Hrest) as (l1 & l2 & -> & Hb & Hl1).
    exists (b0 :: l1), l2. repeat split; auto.
    intros b' [<-|Hin]; auto. }
  destruct (get_user (load_backend dj b0)) as [load|] eqn:Hload.
  - destruct (user_eq user (load (pk user))) eqn:Heq.
    + intros [= <-]. exists [], rest. repeat split.
      * exists load. auto.
      * intros b' [].
    + apply Hskip. intros (load' & Hl & He). congruence.
  - apply Hskip. intros (load' & Hl & _). congruence.
Qed.

Lemma suitable_backend_Ok (user u : User) :
  suitable_backend dj user = Ok u ->
  exists b,
    u = set_backend user (Some b)
    /\ (backend user = Some b
        \/ (backend user = None
            /\ find_backend dj user (AUTHENTICATION_BACKENDS dj) = Some b)).
Proof.
  unfold suitable_backend.
  destruct (backend user) as [b|] eqn:Hb.
  - intros [= <-]. exists b. split; [|now left].
    symmetry. now apply set_backend_same.
  - destruct (find_backend dj user (AUTHENTICATION_BACKENDS dj)) as [b|] eqn:Hf;
      [|discriminate].
    intros [= <-]. exists b. split; [reflexivity|]. right. auto.
Qed.

Lemma suitable_backend_Raise (user : User) (e : Exn) :
  suitable_backend dj user = Raise e ->
  e = ImproperlyConfigured
  /\ backend user = None
  /\ find_backend dj user (AUTHENTICATION_BACKENDS dj) = None.
Proof.
  unfold suitable_backend.
  destruct (backend user) as [b|]; [discriminate|].
  destruct (find_backend dj user (AUTHENTICATION_BACKENDS dj)); [discriminate|].
  now intros [= <-].
Qed.

(** *** The message storage *)

Lemma add_message_request (lvl : Z) (text tags : string) (w : World) :
  request (add_message lvl text tags w) =
  {| request_session := request_session (request w);
     request_user := request_user (request w);
     request_message_level := request_message_level (request w);
     request_messages :=
       (request_messages (request w)
          ++ recorded (request_message_level (request w)) lvl text tags)%list |}.
Proof.
  unfold add_message, recorded.
  rewrite (Z.leb_antisym lvl (request_message_level (request w))).
  destruct (truthy text), (lvl <? request_message_level (request w)); simpl;
    try reflexivity; rewrite app_nil_r; now destruct (request w).
Qed.

Lemma add_message_rest (lvl : Z) (text tags : string) (w : World) :
  LogEntry_objects (add_message lvl text tags w) = LogEntry_objects w
  /\ user_logged_in (add_message lvl text tags w) = user_logged_in w
  /\ dispatched (add_message lvl text tags w) = dispatched w.
Proof.
  unfold add_message.
  destruct (negb (truthy text)), (lvl <? request_message_level (request w));
    repeat split.
Qed.

Lemma add_message_session (lvl : Z) (text tags : string) (w : World) :
  request_session (request (add_message lvl text tags w))
  = request_session (request w).
Proof. now rewrite add_message_request. Qed.

Lemma add_message_world (lvl : Z) (text tags : string) (w : World) :
  add_message lvl text tags w =
  {| request :=
       {| request_session := request_session (request w);
          request_user := request_user (request w);
          request_message_level := request_message_level (request w);
          request_messages :=
            (request_messages (request w)
               ++ recorded (request_message_level (request w)) lvl text tags)%list |};
     LogEntry_objects := LogEntry_objects w;
     user_logged_in := user_logged_in w;
     dispatched := dispatched w |}.
Proof.
  pose proof (add_message_request lvl text tags w) as Hr.
  destruct (add_message_rest lvl text tags w) as (Hl & Hc & Hd).
  destruct (add_message lvl text tags w) as [r l c d].
  cbn [request LogEntry_objects user_logged_in dispatched] in Hr, Hl, Hc, Hd.
  now subst.
Qed.

Lemma recorded_eq (recording_level lvl : Z) (text tags : string) :
  recorded recording_level lvl text tags =
  if negb (String.eqb text EmptyString) && (recording_level <=? lvl)
  then [{| level := lvl; message := text; extra_tags := tags |}]
  else [].
Proof. unfold recorded. now destruct text. Qed.

(** *** The login of lines 78-82 *)

Lemma session_for_Raise (u : User) (s0 : gmap string string) (e : Exn) :
  session_for u s0 = Raise e -> e = ValidationError.
Proof.
  unfold session_for. destruct (s0 !! SESSION_KEY) as [k|]; [|discriminate].
  destruct (parse_int k); [|now intros [= <-]].
  now destruct (_ || _).
Qed.


Lemma login_with_settings_returns (u : User) (w : World)
    (s0 s : gmap string string) (b : string) :
  request_session (request w) = Some s0 ->
  session_for u s0 = Ok s ->
  backend u = Some b ->
  exists w',
    login_with_settings la dj u w = (Returned, w')
    /\ request w' =
       {| request_session := Some (auth_session u b s);
          request_user := ModelUser u;
          request_message_level := request_message_level (request w);
          request_messages := request_messages (request w) |}
    /\ LogEntry_objects w' = LogEntry_objects w
    /\ user_logged_in w' =
       (if UPDATE_LAST_LOGIN la then user_logged_in w
        else reconnected (user_logged_in w)).
Proof.
  intros Hs0 Hs Hb. unfold login_with_settings.
  destruct (UPDATE_LAST_LOGIN la).
  - rewrite (AuthFacts.login_returns dj u w s0 s b Hs0 Hs Hb).
    eexists. split; [reflexivity|]. simpl. auto.
  - unfold no_update_last_login, reconnected.
    destruct (no_update_last_login_enter (user_logged_in w))
      as [[was_connected was_connected_id] rs].
    rewrite (AuthFacts.login_returns dj u (set_receivers w rs) s0 s b Hs0 Hs Hb).
    eexists. split; [reflexivity|]. simpl. auto.
Qed.

Lemma login_with_settings_no_session (u : User) (w : World) :
  request_session (request w) = None ->
  fst (login_with_settings la dj u w) = Raised AttributeError.
Proof.
  intros Hs. unfold login_with_settings.
  destruct (UPDATE_LAST_LOGIN la).
  - now rewrite AuthFacts.login_no_session.
  - unfold no_update_last_login.
    destruct (no_update_last_login_enter (user_logged_in w))
      as [[was_connected was_connected_id] rs].
    now rewrite AuthFacts.login_no_session.
Qed.

Lemma login_with_settings_unreadable (u : User) (w : World)
    (s0 : gmap string string) (e : Exn) :
  request_session (request w) = Some s0 ->
  session_for u s0 = Raise e ->
  fst (login_with_settings la dj u w) = Raised ValidationError.
Proof.
  intros Hs0 Hs. pose proof (session_for_Raise u s0 e Hs) as ->.
  unfold login_with_settings.
  destruct (UPDATE_LAST_LOGIN la).
  - now rewrite (AuthFacts.login_unreadable dj u w s0 _ Hs0 Hs).
  - unfold no_update_last_login.
    destruct (no_update_last_login_enter (user_logged_in w))
      as [[was_connected was_connected_id] rs].
    now rewrite (AuthFacts.login_unreadable dj u (set_receivers w rs) s0 _ Hs0 Hs).
Qed.

(** How the login of a user that carries a backend can end. *)
Lemma login_with_settings_ends (u : User) (w : World) (b : string) :
  backend u = Some b ->
  (exists s0 s, request_session (request w) = Some s0
                /\ session_for u s0 = Ok s
                /\ fst (login_with_settings la dj u w) = Returned)
  \/ (request_session (request w) = None
      /\ fst (login_with_settings la dj u w) = Raised AttributeError)
  \/ ((exists s0 e, request_session (request w) = Some s0
                    /\ session_for u s0 = Raise e)
      /\ fst (login_with_settings la dj u w) = Raised ValidationError).
Proof.
  intros Hb. destruct (request_session (request w)) as [s0|] eqn:Hs0.
  - destruct (session_for u s0) as [s|e] eqn:Hs.
    + left. exists s0, s. repeat split; try assumption.
      destruct (login_with_settings_returns u w s0 s b Hs0 Hs Hb) as (w' & -> & _).
      reflexivity.
    + right. right. split; [eauto|].
      now apply (login_with_settings_unreadable u w s0 e).
  - right. left. split; [reflexivity|].
    now apply login_with_settings_no_session.
Qed.

(** *** How [login_as] ends *)

(** The state after a call that returned. *)
Lemma login_as_Returned (user : User) (w : World) (store : bool) (now : Q) :
  let o := login_as la dj user w store now in
  let original_user_pk := request_user_pk (request_user (request w)) in
  result o = Returned ->
  exists u b s0 s,
    suitable_backend dj user = Ok u
    /\ backend u = Some b
    /\ request_session (request w) = Some s0
    /\ session_for u s0 = Ok s
    /\ user_after o = u
    /\ request (world_after o) =
       {| request_session :=
            Some (if store
                  then <[USER_SESSION_FLAG la :=
                           Signing.sign (signature dj) (str_pk original_user_pk) now]>
                         (auth_session u b s)
                  else auth_session u b s);
          request_user := ModelUser u;
          request_message_level := request_message_level (request w);
          request_messages :=
            (request_messages (request w)
               ++ (if store
                   then recorded (request_message_level (request w)) WARNING
                          (MESSAGE_LOGIN_SWITCH la (username u))
                          (MESSAGE_EXTRA_TAGS la)
                   else []))%list |}
    /\ LogEntry_objects (world_after o) =
       (LogEntry_objects w
          ++ (if pk_truthy original_user_pk
              then [audit_entry dj original_user_pk (request_user (request w)) u]
              else []))%list
    /\ user_logged_in (world_after o) =
       (if UPDATE_LAST_LOGIN la then user_logged_in w
        else reconnected (user_logged_in w)).
Proof.
  intros o original_user_pk. subst o. unfold login_as.
  fold original_user_pk.
  destruct (suitable_backend dj user) as [u|e] eqn:Hsb; [|discriminate].
  destruct (suitable_backend_Ok user u Hsb) as (b & Hu & _).
  assert (Hb : backend u = Some b) by (now subst u).
  rewrite Hb.
  set (w1 := if pk_truthy original_user_pk then _ else w).
  assert (Hreq : request w1 = request w)
    by (subst w1; now destruct (pk_truthy original_user_pk)).
  assert (Hrecv : user_logged_in w1 = user_logged_in w)
    by (subst w1; now destruct (pk_truthy original_user_pk)).
  assert (Hlog : LogEntry_objects w1 =
                 (LogEntry_objects w
                    ++ (if pk_truthy original_user_pk
                        then [audit_entry dj original_user_pk
                                (request_user (request w)) u]
                        else []))%list).
  { subst w1. destruct (pk_truthy original_user_pk); simpl; [reflexivity|].
    now rewrite app_nil_r. }
  destruct (login_with_settings_ends u w1 b Hb)
    as [(s0 & s & Hs0 & Hs & _) | [[_ Hfail] | [_ Hfail]]].
  - destruct (login_with_settings_returns u w1 s0 s b Hs0 Hs Hb)
      as (w2 & Hlogin & Hr2 & Hl2 & Hc2).
    rewrite Hlogin. rewrite Hreq in Hr2, Hs0. rewrite Hrecv in Hc2.
    destruct store.
    + set (w3 := add_message _ _ _ w2).
      pose proof (add_message_request WARNING
                    (MESSAGE_LOGIN_SWITCH la (username u))
                    (MESSAGE_EXTRA_TAGS la) w2) as Hr3.
      destruct (add_message_rest WARNING
                  (MESSAGE_LOGIN_SWITCH la (username u))
                  (MESSAGE_EXTRA_TAGS la) w2) as (Hl3 & Hc3 & _).
      fold w3 in Hr3, Hl3, Hc3. rewrite Hr2 in Hr3. simpl in Hr3.
      rewrite Hr3. simpl. intros _.
      exists u, b, s0, s. repeat split; try reflexivity; try assumption;
        congruence.
    + simpl. intros _.
      exists u, b, s0, s. repeat split; try reflexivity; try assumption.
      * rewrite Hr2. now rewrite app_nil_r.
      * congruence.
  - destruct (login_with_settings la dj u w1) as [r w2]. simpl in Hfail.
    subst r. discriminate.
  - destruct (login_with_settings la dj u w1) as [r w2]. simpl in Hfail.
    subst r. discriminate.
Qed.

(** With a backend for the user, and on the request a session whose
    stored id reads as a pk, the call returns. *)
Lemma login_as_returns (user u : User) (w : World) (store : bool) (now : Q)
    (s0 s : gmap string string) :
  suitable_backend dj user = Ok u ->
  request_session (request w) = Some s0 ->
  session_for u s0 = Ok s ->
  result (login_as la dj user w store now) = Returned.
Proof.
  intros Hsb Hs0 Hs. unfold login_as. rewrite Hsb.
  destruct (suitable_backend_Ok user u Hsb) as (b & Hu & _).
  assert (Hb : backend u = Some b) by (now subst u).
  rewrite Hb.
  set (w1 := if pk_truthy _ then _ else w).
  assert (Hreq : request w1 = request w)
    by (subst w1; now destruct (pk_truthy _)).
  destruct (login_with_settings_returns u w1 s0 s b) as (w2 & Hlogin & Hr2 & _);
    [now rewrite Hreq | assumption | assumption |].
  rewrite Hlogin. destruct store; [|reflexivity].
  rewrite add_message_session, Hr2. reflexivity.
Qed.

(** The only exception of [login_as] itself is the one of the loop. *)
Lemma login_as_ImproperlyConfigured (user : User) (w : World) (store : bool)
    (now : Q) :
  result (login_as la dj user w store now) = Raised ImproperlyConfigured ->
  suitable_backend dj user = Raise ImproperlyConfigured.
Proof.
  unfold login_as.
  destruct (suitable_backend dj user) as [u|e] eqn:Hsb.
  - destruct (suitable_backend_Ok user u Hsb) as (b & Hu & _).
    assert (Hb : backend u = Some b) by (now subst u).
    rewrite Hb.
    set (w1 := if pk_truthy _ then _ else w).
    destruct (login_with_settings_ends u w1 b Hb)
      as [(s0 & s & Hs0 & Hs & _) | [[_ Hfail] | [_ Hfail]]].
    + destruct (login_with_settings_returns u w1 s0 s b Hs0 Hs Hb)
        as (w2 & Hlogin & Hr2 & _).
      rewrite Hlogin. destruct store; [|discriminate].
      rewrite add_message_session, Hr2. discriminate.
    + destruct (login_with_settings la dj u w1) as [r w2]. simpl in Hfail.
      subst r. discriminate.
    + destruct (login_with_settings la dj u w1) as [r w2]. simpl in Hfail.
      subst r. discriminate.
  - simpl. now intros [= ->].
Qed.
End WithSettings.

End LoginAsFacts.

Module RestoreFacts.
Import Text Dispatch Framework Settings Auth Utils Spec Runs.

Lemma truthy_append (a b : string) (c : ascii) :
  truthy (a ++ String c b) = true.
Proof. destruct a; reflexivity. Qed.

Section WithSettings.
Variable la : la_settings.
Variable dj : django_settings.

(** A signed value is never the empty string. *)
Lemma truthy_sign (value : string) (now : Q) :
  truthy (Signing.sign (signature dj) value now) = true.
Proof. unfold Signing.sign, Signing.Signer_sign. apply truthy_append. Qed.

Lemma logout_session (w : World) (s : gmap string string) :
  request_session (request w) = Some s ->
  logout w = (Returned, logged_out w).
Proof. intros H. unfold logout. now rewrite H. Qed.

(** The flag [login_as] leaves on the session. *)
Lemma login_as_flag (user : User) (w : World) (now : Q) :
  let o := login_as la dj user w true now in
  result o = Returned ->
  exists s,
    request_session (request (world_after o)) = Some s
    /\ s !! USER_SESSION_FLAG la
       = Some (Signing.sign (signature dj)
                 (str_pk (request_user_pk (request_user (request w)))) now).
Proof.
  intros o Hret.
  destruct (LoginAsFacts.login_as_Returned la dj user w true now Hret)
    as (u & b & s0 & s & _ & _ & _ & _ & _ & Hreq & _).
  fold o in Hreq. rewrite Hreq. simpl.
  eexists. split; [reflexivity|]. apply lookup_insert_eq.
Qed.

(** Whatever happens in the [try], the session has no flag after it
    when it had none before. *)
Lemma restore_from_no_flag (token : string) (w : World) (now : Q) :
  request_session (request w) = Some ∅ ->
  is_impersonated_session la (request (snd (restore_from la dj token w now)))
  = false.
Proof.
  intros Hs. unfold restore_from.
  assert (Hw : is_impersonated_session la (request w) = false).
  { unfold is_impersonated_session. rewrite Hs, lookup_empty.
    apply bool_decide_eq_false_2. now intros [? ?]. }
  destruct (Signing.unsign _ _ _ _) as [text|e]; [|exact Hw].
  destruct (objects_get dj text) as [user|e]; [|exact Hw].
  set (w1 := add_message _ _ _ w).
  assert (Hs1 : request_session (request w1) = Some ∅)
    by (subst w1; now rewrite LoginAsFacts.add_message_session).
  assert (Hw1 : is_impersonated_session la (request w1) = false).
  { unfold is_impersonated_session. rewrite Hs1, lookup_empty.
    apply bool_decide_eq_false_2. now intros [? ?]. }
  destruct (suitable_backend dj user) as [u|e] eqn:Hsb.
  - pose proof (LoginAsFacts.login_as_returns la dj user u w1 false now ∅ ∅ Hsb
                  Hs1 (AuthFacts.session_for_empty u)) as Hret.
    destruct (LoginAsFacts.login_as_Returned la dj user w1 false now Hret)
      as (u' & b & s0 & s & _ & _ & _ & _ & _ & Hreq & _).
    rewrite Hret, Hreq. simpl.
    destruct (auth_session u' b s !! USER_SESSION_FLAG la) eqn:Hflag; simpl.
    + unfold is_impersonated_session. simpl. rewrite lookup_delete_eq.
      apply bool_decide_eq_false_2. now intros [? ?].
    + unfold is_impersonated_session. rewrite Hreq. simpl. rewrite Hflag.
      apply bool_decide_eq_false_2. now intros [? ?].
  - unfold login_as. rewrite Hsb. exact Hw1.
Qed.

(** After [restore_original_login] the session is never flagged,
    whether the original user came back or not. *)
Lemma restore_original_login_clears_flag (w : World) (now : Q) :
  is_Some (request_session (request w)) ->
  is_impersonated_session la
    (request (snd (restore_original_login la dj w now))) = false.
Proof.
  intros [s Hs]. unfold restore_original_login. rewrite Hs.
  rewrite (logout_session w s Hs).
  set (w1 := logged_out w).
  assert (Hw1 : is_impersonated_session la (request w1) = false).
  { unfold is_impersonated_session. simpl. rewrite lookup_empty.
    apply bool_decide_eq_false_2. now intros [? ?]. }
  destruct (s !! USER_SESSION_FLAG la) as [token|]; [|exact Hw1].
  destruct (truthy token); [|exact Hw1]. simpl.
  pose proof (restore_from_no_flag token w1 now eq_refl) as H.
  unfold except_SignatureExpired.
  destruct (restore_from la dj token w1 now) as [[|[]] w2]; exact H.
Qed.
End WithSettings.

End RestoreFacts.

Module DemoFacts.
Import Text Dispatch Framework Settings Auth Utils Spec Demo.

Lemma mac_text (v : string) : sep_free (mac v) = true.
Proof. apply Base62Facts.b62_encode_sep_free. Qed.

Lemma within_two_days :
  (t1 - inject_Z (Signing.int_of_time t0)
   <= Signing.total_seconds_of_days (USER_SESSION_DAYS_TIMESTAMP la))%Q.
Proof. apply Qle_bool_iff. vm_compute. reflexivity. Qed.

Lemma model_backend_suits_alice : suitable dj (set_backend alice None) ModelBackend.
Proof. eexists. split; [reflexivity|]. vm_compute. reflexivity. Qed.


Lemma bob_backend_not_for_alice (b : string) : ~ suitable dj_bob_only alice b.
Proof. intros (load & [= <-] & Heq). vm_compute in Heq. discriminate. Qed.
End DemoFacts.

Module LoginasSpec.
Import Text Dispatch Framework Settings Auth Utils Spec Runs.

Section WithSettings.
Variable la : la_settings.
Variable dj : django_settings.

(** C1. Whenever [login_as(user, request)] returns without raising, the
    request is authenticated as the target user: [request.user] is the
    target (with its backend attribute set), and the session carries the
    target's pk, backend and hash under the framework's keys, the
    configured flag key not being one of those three (or no flag being
    stored). *)
Theorem login_as_authenticates (user : User) (w : World) (store : bool)
    (now : Q) :
  let o := login_as la dj user w store now in
  result o = Returned ->
  exists b s,
    user_after o = set_backend user (Some b)
    /\ request_user (request (world_after o)) = ModelUser (user_after o)
    /\ request_session (request (world_after o)) = Some s
    /\ (store = false \/ ~ In (USER_SESSION_FLAG la) auth_keys ->
        s !! SESSION_KEY = Some (str_pk (pk user))
        /\ s !! BACKEND_SESSION_KEY = Some b
        /\ s !! HASH_SESSION_KEY = Some (session_auth_hash user)).
Proof.
  intros o Hret.
  destruct (LoginAsFacts.login_as_Returned la dj user w store now Hret)
    as (u & b & s0 & s & Hsb & Hb & _ & _ & Hu & Hreq & _).
  fold o in Hu, Hreq.
  destruct (LoginAsFacts.suitable_backend_Ok dj user u Hsb) as (b' & Hset & _).
  assert (b' = b) as ->
    by (rewrite Hset in Hb; unfold set_backend in Hb; simpl in Hb; congruence).
  eexists b, _. rewrite Hreq, Hu. simpl.
  split; [assumption|]. split; [reflexivity|]. split; [reflexivity|].
  assert (Hauth : forall t : gmap string string,
             auth_session u b t !! SESSION_KEY = Some (str_pk (pk user))
             /\ auth_session u b t !! BACKEND_SESSION_KEY = Some b
             /\ auth_session u b t !! HASH_SESSION_KEY
                = Some (session_auth_hash user)).
  { intros t. unfold auth_session. rewrite Hset. unfold set_backend. simpl.
    repeat split.
    - rewrite !lookup_insert_ne by discriminate. apply lookup_insert_eq.
    - rewrite lookup_insert_ne by discriminate. apply lookup_insert_eq.
    - apply lookup_insert_eq. }
  intros [-> | Hflag]; [apply Hauth|].
  destruct store; [|apply Hauth].
  rewrite !lookup_insert_ne; [apply Hauth| | |];
    intros Heq; apply Hflag; rewrite Heq; simpl; auto.
Qed.

(** C3. Whenever [login_as(user, request)] with
    [store_original_user=True] returns without raising, the session
    holds, under the configured flag key, the signed pk of the user the
    request had before the call: the text of that pk, the time of the call
    in base 62, and the signer's MAC of these two, joined by colons. *)
Theorem login_as_stores_signed_original_pk (user : User) (w : World)
    (now : Q) :
  let o := login_as la dj user w true now in
  let text := str_pk (request_user_pk (request_user (request w))) in
  let stamp := Base62.b62_encode (Signing.int_of_time now) in
  result o = Returned ->
  exists s,
    request_session (request (world_after o)) = Some s
    /\ s !! USER_SESSION_FLAG la
       = Some (text ++ ":" ++ stamp ++ ":"
                 ++ signature dj (text ++ ":" ++ stamp))
    /\ Base62.b62_decode stamp = Ok (Signing.int_of_time now).
Proof.
  intros o text stamp Hret.
  destruct (RestoreFacts.login_as_flag la dj user w now Hret) as (s & Hs & Hflag).
  exists s. split; [exact Hs|]. split.
  - rewrite Hflag. f_equal.
    unfold Signing.sign, Signing.Signer_sign, Signing.timestamp.
    fold text stamp. now rewrite TextFacts.append_assoc.
  - apply Base62Facts.b62_decode_encode.
Qed.

(** C4, amended. Whenever [login_as(user, request)] returns without
    raising, the admin log has grown by exactly one entry when the pk of
    the original user is truthy (neither [None] nor 0): user id the
    original pk, object the target, message "User <original> logged in
    as <target>.", flag CHANGE; and by none when that pk is falsy, as
    for an anonymous request. *)
Theorem login_as_audit_entry (user : User) (w : World) (store : bool)
    (now : Q) :
  let o := login_as la dj user w store now in
  let original := request_user (request w) in
  result o = Returned ->
  LogEntry_objects (world_after o) =
  (LogEntry_objects w
     ++ (if pk_truthy (request_user_pk original)
         then [{| user_id := request_user_pk original;
                  content_type_id := User_content_type dj;
                  object_id := pk user;
                  object_repr := username user;
                  change_message :=
                    "User " ++ str_request_user original
                      ++ " logged in as " ++ username user ++ ".";
                  action_flag := CHANGE |}]
         else []))%list.
Proof.
  intros o original Hret.
  destruct (LoginAsFacts.login_as_Returned la dj user w store now Hret)
    as (u & b & s0 & s & Hsb & _ & _ & _ & _ & _ & Hlog & _).
  fold o in Hlog. rewrite Hlog.
  destruct (LoginAsFacts.suitable_backend_Ok dj user u Hsb) as (b' & -> & _).
  reflexivity.
Qed.


(** C8. Whenever [login_as] raises ImproperlyConfigured, nothing has
    changed: the world (request, session, messages, admin log, signal
    receivers) and the user object are as before the call. *)
Theorem login_as_failure_is_atomic (user : User) (w : World) (store : bool)
    (now : Q) :
  let o := login_as la dj user w store now in
  result o = Raised ImproperlyConfigured ->
  world_after o = w /\ user_after o = user.
Proof.
  intros o Hraise.
  apply LoginAsFacts.login_as_ImproperlyConfigured in Hraise.
  subst o. unfold login_as. rewrite Hraise. split; reflexivity.
Qed.


(** C6. The session flag is a signed token of the original user's pk:
    when the MAC text has no [":"], unsigning the value [login_as]
    stored, at a time when its age does not exceed the configured
    maximum, yields the text of the original pk, which reads back as
    that pk. *)
Theorem session_flag_unsigns_to_original_pk (user : User) (w : World)
    (now later : Q) :
  let o := login_as la dj user w true now in
  let original_user_pk := request_user_pk (request_user (request w)) in
  let max_age := Signing.total_seconds_of_days (USER_SESSION_DAYS_TIMESTAMP la) in
  (forall v, sep_free (signature dj v) = true) ->
  result o = Returned ->
  (later - inject_Z (Signing.int_of_time now) <= max_age)%Q ->
  exists s token,
    request_session (request (world_after o)) = Some s
    /\ s !! USER_SESSION_FLAG la = Some token
    /\ Signing.unsign (signature dj) token max_age later
       = Ok (str_pk original_user_pk)
    /\ forall z, original_user_pk = Some z ->
                 parse_int (str_pk original_user_pk) = Some z.
Proof.
  intros o original_user_pk max_age Hsig Hret Hage.
  destruct (RestoreFacts.login_as_flag la dj user w now Hret)
    as (s & Hs & Hflag).
  exists s, (Signing.sign (signature dj) (str_pk original_user_pk) now).
  repeat split; try assumption.
  - now apply SigningFacts.unsign_sign.
  - intros z ->. apply TextFacts.parse_int_str_int.
Qed.

(** C7. On a request whose session has no flag,
    [restore_original_login] logs the session out and does nothing
    else: it returns, the session is empty, the user is anonymous, no
    message is queued, and admin log, receivers and signal calls are as
    before. *)
Theorem restore_original_login_without_flag (w : World) (now : Q)
    (s : gmap string string) :
  let r := restore_original_login la dj w now in
  request_session (request w) = Some s ->
  s !! USER_SESSION_FLAG la = None ->
  fst r = Returned
  /\ request_session (request (snd r)) = Some ∅
  /\ request_user (request (snd r)) = AnonymousUser
  /\ request_messages (request (snd r)) = request_messages (request w)
  /\ request_message_level (request (snd r)) = request_message_level (request w)
  /\ LogEntry_objects (snd r) = LogEntry_objects w
  /\ user_logged_in (snd r) = user_logged_in w
  /\ dispatched (snd r) = dispatched w.
Proof.
  intros r Hs Hflag. subst r. unfold restore_original_login.
  rewrite Hs, (RestoreFacts.logout_session w s Hs), Hflag.
  repeat split.
Qed.


(** C2, amended. Let a request carry the flag that a preceding
    [login_as(target, request, store_original_user=True)] wrote while a
    user with pk [z] was logged in.  If, when
    [restore_original_login(request)] is called, the age of the flag
    does not exceed the configured maximum, the user model still has a
    row [u] with pk [z] and some configured backend is suitable for it,
    then the call returns, [request.user] is [u] again (under the first
    suitable backend), the session is authenticated as [u] and has no
    flag, and [is_impersonated_session(request)] is [False]. *)
Theorem restore_original_login_round_trip (dj0 : django_settings)
    (target : User) (w0 : World) (signed_at : Q) (w : World) (later : Q)
    (z : Z) (u : User) :
  let o := login_as la dj0 target w0 true signed_at in
  let max_age := Signing.total_seconds_of_days (USER_SESSION_DAYS_TIMESTAMP la) in
  (forall v, sep_free (signature dj v) = true) ->
  signature dj0 = signature dj ->
  result o = Returned ->
  request_user_pk (request_user (request w0)) = Some z ->
  session_flag la (request w) = session_flag la (request (world_after o)) ->
  (later - inject_Z (Signing.int_of_time signed_at) <= max_age)%Q ->
  row dj z = Some u ->
  (exists b, In b (AUTHENTICATION_BACKENDS dj)
             /\ suitable dj (set_backend u None) b) ->
  exists w' b s',
    restore_original_login la dj w later = (Returned, w')
    /\ suitable dj (set_backend u None) b
    /\ pk u = Some z
    /\ request_user (request w') = ModelUser (set_backend u (Some b))
    /\ request_session (request w') = Some s'
    /\ s' !! USER_SESSION_FLAG la = None
    /\ (~ In (USER_SESSION_FLAG la) auth_keys ->
        s' !! SESSION_KEY = Some (str_int z))
    /\ is_impersonated_session la (request w') = false.
Proof.
  intros o max_age Hsig Hkey Hret Horig Hflag Hage Hrow (b0 & Hin & Hsuit).
  (* the token on the session *)
  destruct (RestoreFacts.login_as_flag la dj0 target w0 signed_at Hret)
    as (s0 & Hs0 & Htoken).
  fold o in Hs0. unfold session_flag in Hflag.
  rewrite Hs0, Htoken, Horig, Hkey in Hflag. simpl in Hflag.
  destruct (request_session (request w)) as [s|] eqn:Hs; [|discriminate].
  (* the backend the loop finds for the fresh instance *)
  set (user := set_backend u None).
  destruct (find_backend dj user (AUTHENTICATION_BACKENDS dj)) as [b|] eqn:Hfind;
    [|exfalso;
      apply (proj1 (LoginAsFacts.find_backend_None dj user _) Hfind b0 Hin Hsuit)].
  destruct (LoginAsFacts.find_backend_Some dj user _ b Hfind)
    as (_ & _ & _ & Hb & _).
  assert (Hok : suitable_backend dj user = Ok (set_backend u (Some b)))
    by (unfold suitable_backend; simpl; now rewrite Hfind).
  (* run the call *)
  unfold restore_original_login.
  rewrite Hs, (RestoreFacts.logout_session w s Hs), Hflag.
  rewrite RestoreFacts.truthy_sign. simpl negb. cbv iota.
  unfold restore_from. fold max_age.
  rewrite (SigningFacts.unsign_sign _ Hsig _ _ _ _ Hage).
  rewrite (AuthFacts.objects_get_row dj z u Hrow). fold user.
  set (w2 := add_message _ _ _ _).
  assert (Hs2 : request_session (request w2) = Some ∅)
    by (subst w2; now rewrite LoginAsFacts.add_message_session).
  pose proof (LoginAsFacts.login_as_returns la dj user _ w2 false later ∅ ∅ Hok
                Hs2 (AuthFacts.session_for_empty _)) as Hret2.
  destruct (LoginAsFacts.login_as_Returned la dj user w2 false later Hret2)
    as (u' & b' & s2 & s2' & Hok' & Hb' & Hs2' & Hfor & _ & Hreq & _).
  rewrite Hok in Hok'. injection Hok' as <-.
  rewrite Hs2 in Hs2'. injection Hs2' as <-.
  rewrite AuthFacts.session_for_empty in Hfor. injection Hfor as <-.
  assert (b' = b) as ->
    by (unfold set_backend in Hb'; simpl in Hb'; congruence).
  set (s3 := auth_session (set_backend u (Some b)) b ∅) in Hreq.
  assert (Hpk : pk u = Some z) by (now apply (AuthFacts.row_pk dj)).
  assert (Hid : s3 !! SESSION_KEY = Some (str_int z)).
  { subst s3. unfold auth_session. simpl. rewrite Hpk.
    rewrite !lookup_insert_ne by discriminate. apply lookup_insert_eq. }
  destruct (login_as la dj user w2 false later) as [r3 u3 w3].
  simpl in Hret2, Hreq. subst r3. cbn [result world_after].
  rewrite Hreq. cbn [request_session].
  destruct (s3 !! USER_SESSION_FLAG la) as [v|] eqn:Hfl.
  - eexists _, b, _. split; [reflexivity|].
    unfold is_impersonated_session. cbn [request set_request set_session
      request_session request_user].
    split; [exact Hb|]. split; [exact Hpk|].
    split; [reflexivity|]. split; [reflexivity|].
    rewrite lookup_delete_eq.
    split; [reflexivity|]. split.
    + intros Hnot. exfalso. subst s3. unfold auth_session in Hfl.
      rewrite !lookup_insert_ne, lookup_empty in Hfl;
        [discriminate| | |];
        intros Heq; apply Hnot; rewrite <- Heq; simpl; tauto.
    + apply bool_decide_eq_false_2. now intros [? ?].
  - eexists _, b, _. split; [reflexivity|].
    unfold is_impersonated_session. rewrite Hreq.
    cbn [request_session request_user].
    split; [exact Hb|]. split; [exact Hpk|].
    split; [reflexivity|]. split; [reflexivity|].
    split; [exact Hfl|]. split; [intros _; exact Hid|].
    rewrite Hfl. apply bool_decide_eq_false_2. now intros [? ?].
Qed.
End WithSettings.

(** *** The statements above on the small project *)

Import Demo Cases.

Lemma login_as_authenticates_witness :
  exists b s,
    user_after (login_as la dj bob alice_world true t0) = set_backend bob (Some b)
    /\ request_user (request impersonating_world) = ModelUser (set_backend bob (Some b))
    /\ request_session (request impersonating_world) = Some s
    /\ s !! SESSION_KEY = Some "2"
    /\ s !! BACKEND_SESSION_KEY = Some b
    /\ s !! HASH_SESSION_KEY = Some "h-bob".
Proof.
  destruct (login_as_authenticates la dj bob alice_world true t0)
    as (b & s & Hu & Hr & Hs & Hkeys).
  - vm_compute. reflexivity.
  - exists b, s. rewrite Hu in Hr.
    split; [exact Hu|]. split; [exact Hr|]. split; [exact Hs|].
    apply Hkeys. right. vm_compute. intuition discriminate.
Defined.

Lemma login_as_stores_signed_original_pk_witness :
  exists s,
    request_session (request impersonating_world) = Some s
    /\ s !! "loginas_from_user" = Some "1:1r31eq:YTh"
    /\ Base62.b62_decode "1r31eq" = Ok 1700000000.
Proof.
  destruct (login_as_stores_signed_original_pk la dj bob alice_world t0)
    as (s & Hs & Hflag & Hstamp).
  - vm_compute. reflexivity.
  - exists s. split; [exact Hs|]. split; [exact Hflag | exact Hstamp].
Defined.

Lemma login_as_audit_entry_witness :
  LogEntry_objects impersonating_world =
  [{| user_id := Some 1; content_type_id := 4; object_id := Some 2;
      object_repr := "bob"; change_message := "User alice logged in as bob.";
      action_flag := 2 |}].
Proof.
  apply (login_as_audit_entry la dj bob alice_world true t0).
  vm_compute. reflexivity.
Defined.

(** C4 as stated fails: an anonymous request logs in as [bob], the call
    returns, and the admin log is still empty. *)
Lemma login_as_anonymous_leaves_no_audit_entry :
  let o := login_as la dj bob anonymous_world true t0 in
  result o = Returned
  /\ request_user (request (world_after o))
     = ModelUser (set_backend bob (Some ModelBackend))
  /\ LogEntry_objects anonymous_world = []
  /\ LogEntry_objects (world_after o) = [].
Proof. vm_compute. repeat split; reflexivity. Qed.



Lemma login_as_failure_is_atomic_witness :
  world_after (login_as la dj_bob_only alice alice_world true t0) = alice_world
  /\ user_after (login_as la dj_bob_only alice alice_world true t0) = alice.
Proof.
  apply (login_as_failure_is_atomic la dj_bob_only alice alice_world true t0).
  vm_compute. reflexivity.
Defined.


Lemma session_flag_unsigns_to_original_pk_witness :
  exists s token,
    request_session (request impersonating_world) = Some s
    /\ s !! "loginas_from_user" = Some token
    /\ Signing.unsign mac token (Signing.total_seconds_of_days 2) t1 = Ok "1"
    /\ forall z, Some 1 = Some z -> parse_int "1" = Some z.
Proof.
  apply (session_flag_unsigns_to_original_pk la dj bob alice_world t0 t1).
  - exact DemoFacts.mac_text.
  - vm_compute. reflexivity.
  - exact DemoFacts.within_two_days.
Defined.

Lemma restore_original_login_without_flag_witness :
  let r := restore_original_login la dj alice_world t1 in
  request_user (request alice_world)
  = ModelUser (set_backend alice (Some ModelBackend))
  /\ request_session (request alice_world) = Some alice_session
  /\ fst r = Returned
  /\ request_session (request (snd r)) = Some ∅
  /\ request_user (request (snd r)) = AnonymousUser
  /\ request_messages (request (snd r)) = []
  /\ request_message_level (request (snd r)) = 20
  /\ LogEntry_objects (snd r) = []
  /\ user_logged_in (snd r) = receivers0
  /\ dispatched (snd r) = [].
Proof.
  split; [reflexivity|]. split; [reflexivity|].
  apply (restore_original_login_without_flag la dj alice_world t1 alice_session);
    reflexivity.
Defined.



Lemma restore_original_login_round_trip_witness :
  exists w' b s',
    restore_original_login la dj impersonating_world t1 = (Returned, w')
    /\ suitable dj (set_backend alice None) b
    /\ pk alice = Some 1
    /\ request_user (request w') = ModelUser (set_backend alice (Some b))
    /\ request_session (request w') = Some s'
    /\ s' !! "loginas_from_user" = None
    /\ s' !! SESSION_KEY = Some "1"
    /\ is_impersonated_session la (request w') = false.
Proof.
  destruct (restore_original_login_round_trip la dj dj bob alice_world t0
              impersonating_world t1 1 alice)
    as (w' & b & s' & H1 & H2 & H3 & H4 & H5 & H6 & H7 & H8).
  - exact DemoFacts.mac_text.
  - reflexivity.
  - vm_compute. reflexivity.
  - reflexivity.
  - reflexivity.
  - exact DemoFacts.within_two_days.
  - reflexivity.
  - exists ModelBackend. split; [now left|].
    exact DemoFacts.model_backend_suits_alice.
  - exists w', b, s'. repeat split; try assumption.
    apply H7. vm_compute. intuition discriminate.
Defined.

(** C2 as stated fails: [alice] logs in as [bob], her account is deleted,
    and the restore, well within the two days, raises DoesNotExist and
    leaves the request anonymous. *)
Lemma restore_original_login_after_deletion :
  let o := login_as la dj bob alice_world true t0 in
  let r := restore_original_login la dj_without_alice (world_after o) t1 in
  result o = Returned
  /\ is_impersonated_session la (request (world_after o)) = true
  /\ (t1 - inject_Z (Signing.int_of_time t0)
      <= Signing.total_seconds_of_days (USER_SESSION_DAYS_TIMESTAMP la))%Q
  /\ fst r = Raised DoesNotExist
  /\ request_user (request (snd r)) = AnonymousUser.
Proof.
  split; [vm_compute; reflexivity|].
  split; [vm_compute; reflexivity|].
  split; [exact DemoFacts.within_two_days|].
  split; vm_compute; reflexivity.
Qed.

(** An anonymous request that logged in as [bob] cannot be restored
    either: its flag holds the text of [None], which is no pk. *)
Example restore_original_login_anonymous_original :
  let o := login_as la dj bob anonymous_world true t0 in
  let r := restore_original_login la dj (world_after o) t1 in
  result o = Returned
  /\ session_flag la (request (world_after o)) = Some (Signing.sign mac "None" t0)
  /\ fst r = Raised ValueError
  /\ request_user (request (snd r)) = AnonymousUser.
Proof. vm_compute. repeat split; reflexivity. Qed.

(** Nor can a user that no configured backend loads: the backend search
    of the nested [login_as] raises. *)
Example restore_original_login_unloadable_original :
  let o := login_as la dj_bob_only bob alice_world true t0 in
  let r := restore_original_login la dj_bob_only (world_after o) t1 in
  result o = Returned
  /\ fst r = Raised ImproperlyConfigured
  /\ request_user (request (snd r)) = AnonymousUser.
Proof. vm_compute. repeat split; reflexivity. Qed.

(** After the configured two days the signature has expired: the call
    returns, and the request stays logged out. *)
Example restore_original_login_expired :
  let r := restore_original_login la dj impersonating_world t2 in
  fst r = Returned
  /\ request_user (request (snd r)) = AnonymousUser
  /\ request_session (request (snd r)) = Some ∅
  /\ request_messages (request (snd r)) = request_messages (request impersonating_world).
Proof. vm_compute. repeat split; reflexivity. Qed.

(** With the feature disabled, [update_last_login] is not among the
    receivers the login calls; with it enabled, it is. *)
Example update_last_login_not_called :
  dispatched impersonating_world = [(other_receiver "audit", Some 2)]
  /\ dispatched (world_after (login_as la_update dj bob alice_world true t0))
     = [(update_last_login, Some 2); (other_receiver "audit", Some 2)].
Proof. vm_compute. split; reflexivity. Qed.

End LoginasSpec.

(** * More about the calls *)

Module RunFacts.
Import Text Dispatch Framework Settings Auth Utils Spec Runs.

(** Cutting at the last separator loses nothing. *)
Lemma rsplit_Some (s a b : string) :
  rsplit s = Some (a, b) -> s = a ++ String sep b.
Proof.
  revert a. induction s as [|c rest IH]; intros a; simpl; [discriminate|].
  destruct (rsplit rest) as [[a' b']|] eqn:E.
  - intros [= <- <-]. rewrite TextFacts.append_cons. f_equal. now apply IH.
  - destruct (Ascii.eqb_spec c sep) as [->|_]; [|discriminate].
    now intros [= <- <-].
Qed.

Section WithSettings.
Variable la : la_settings.
Variable dj : django_settings.

(** A value the signer accepts carries the signer's MAC. *)
Lemma unsign_Ok (token text : string) (max_age now : Q) :
  Signing.unsign (signature dj) token max_age now = Ok text ->
  exists ts, token = Signing.Signer_sign (signature dj) (text ++ String sep ts).
Proof.
  unfold Signing.unsign, Signing.Signer_unsign, Signing.Signer_sign.
  destruct (rsplit token) as [[value sig]|] eqn:Ht; [|discriminate].
  destruct (String.eqb_spec sig (signature dj value)) as [->|_]; [|discriminate].
  destruct (rsplit value) as [[v ts]|] eqn:Hv; [|discriminate].
  destruct (Base62.b62_decode ts); [|discriminate].
  destruct (negb _); [discriminate|].
  intros [= ->]. exists ts.
  apply rsplit_Some in Hv. subst value. now apply rsplit_Some.
Qed.

(** A MAC that is not the signer's is refused. *)
Lemma unsign_forged (value forged : string) (max_age now : Q) :
  sep_free forged = true ->
  forged <> signature dj value ->
  Signing.unsign (signature dj) (value ++ String sep forged) max_age now
  = Raise BadSignature.
Proof.
  intros Hfree Hne. unfold Signing.unsign, Signing.Signer_unsign.
  rewrite TextFacts.rsplit_append by assumption.
  destruct (String.eqb_spec forged (signature dj value)); [contradiction|reflexivity].
Qed.

(** *** [login_as], whatever its outcome *)

Lemma login_with_settings_log (u : User) (w : World) :
  LogEntry_objects (snd (login_with_settings la dj u w)) = LogEntry_objects w.
Proof.
  unfold login_with_settings, no_update_last_login, login.
  destruct (UPDATE_LAST_LOGIN la).
  - destruct (request_session (request w)) as [s0|]; [|reflexivity].
    destruct (session_for u s0); [|reflexivity].
    destruct (backend_for dj u); reflexivity.
  - destruct (no_update_last_login_enter (user_logged_in w)) as [[a b] rs].
    simpl. destruct (request_session (request w)) as [s0|]; [|reflexivity].
    destruct (session_for u s0); [|reflexivity].
    destruct (backend_for dj u); reflexivity.
Qed.

(** The calls of the signal during a login that returns. *)
Lemma login_with_settings_dispatched (u : User) (w : World)
    (s0 s : gmap string string) (b : string) :
  request_session (request w) = Some s0 ->
  session_for u s0 = Ok s ->
  backend u = Some b ->
  dispatched (snd (login_with_settings la dj u w))
  = (dispatched w ++ signal_calls u (listening la (user_logged_in w)))%list.
Proof.
  intros Hs0 Hs Hb. unfold login_with_settings, listening, entered.
  destruct (UPDATE_LAST_LOGIN la).
  - now rewrite (AuthFacts.login_returns dj u w s0 s b Hs0 Hs Hb).
  - unfold no_update_last_login.
    destruct (no_update_last_login_enter (user_logged_in w)) as [[c d] rs].
    now rewrite (AuthFacts.login_returns dj u (set_receivers w rs) s0 s b Hs0 Hs Hb).
Qed.

(** Without a session the login raises, and the context manager, if it
    was used, is left without restoring. *)
Lemma login_with_settings_raises (u : User) (w : World) :
  request_session (request w) = None ->
  login_with_settings la dj u w
  = (Raised AttributeError,
     if UPDATE_LAST_LOGIN la then w
     else set_receivers w (entered (user_logged_in w))).
Proof.
  intros Hs. unfold login_with_settings, entered.
  destruct (UPDATE_LAST_LOGIN la).
  - now apply AuthFacts.login_no_session.
  - unfold no_update_last_login.
    destruct (no_update_last_login_enter (user_logged_in w)) as [[c d] rs].
    now rewrite AuthFacts.login_no_session.
Qed.

Lemma login_as_dispatched (user : User) (w : World) (store : bool) (now : Q) :
  let o := login_as la dj user w store now in
  result o = Returned ->
  dispatched (world_after o)
  = (dispatched w ++ signal_calls user (listening la (user_logged_in w)))%list.
Proof.
  intros o Hret.
  destruct (LoginAsFacts.login_as_Returned la dj user w store now Hret)
    as (u & b & s0 & s & Hsb & Hb & Hs0 & Hs & _).
  destruct (LoginAsFacts.suitable_backend_Ok dj user u Hsb) as (b' & Hu & _).
  subst o. unfold login_as in *. rewrite Hsb in *. rewrite Hb in *.
  set (w1 := if pk_truthy _ then _ else w) in *.
  assert (Hreq : request w1 = request w)
    by (subst w1; now destruct (pk_truthy _)).
  assert (Hrecv : user_logged_in w1 = user_logged_in w)
    by (subst w1; now destruct (pk_truthy _)).
  assert (Hdis : dispatched w1 = dispatched w)
    by (subst w1; now destruct (pk_truthy _)).
  pose proof (login_with_settings_dispatched u w1 s0 s b) as Hd.
  rewrite Hreq, Hrecv, Hdis in Hd. specialize (Hd Hs0 Hs Hb).
  assert (Hcalls : signal_calls u (listening la (user_logged_in w))
                   = signal_calls user (listening la (user_logged_in w)))
    by (now rewrite Hu).
  rewrite Hcalls in Hd.
  destruct (login_with_settings la dj u w1) as [[|e] w2]; [|discriminate].
  simpl in Hd. destruct store; [|exact Hd].
  destruct (LoginAsFacts.add_message_rest WARNING
              (MESSAGE_LOGIN_SWITCH la (username u)) (MESSAGE_EXTRA_TAGS la) w2)
    as (_ & _ & Hd3).
  destruct (request_session (request (add_message _ _ _ w2)));
    simpl; now rewrite Hd3.
Qed.

(** A call on a request without a session, when a backend is there. *)
Lemma login_as_no_session (user u : User) (w : World) (store : bool) (now : Q) :
  let o := login_as la dj user w store now in
  let original := request_user (request w) in
  suitable_backend dj user = Ok u ->
  request_session (request w) = None ->
  result o = Raised AttributeError
  /\ user_after o = u
  /\ request (world_after o) = request w
  /\ LogEntry_objects (world_after o)
     = (LogEntry_objects w
          ++ (if pk_truthy (request_user_pk original)
              then [audit_entry dj (request_user_pk original) original u]
              else []))%list
  /\ user_logged_in (world_after o) = listening la (user_logged_in w).
Proof.
  intros o original Hsb Hs.
  destruct (LoginAsFacts.suitable_backend_Ok dj user u Hsb) as (b & Hu & _).
  assert (Hb : backend u = Some b) by (now subst u).
  subst o. unfold login_as. rewrite Hsb, Hb.
  fold original.
  set (w1 := if pk_truthy _ then _ else w).
  assert (Hreq : request w1 = request w)
    by (subst w1; now destruct (pk_truthy _)).
  assert (Hrecv : user_logged_in w1 = user_logged_in w)
    by (subst w1; now destruct (pk_truthy _)).
  assert (Hlog : LogEntry_objects w1
                 = (LogEntry_objects w
                      ++ (if pk_truthy (request_user_pk original)
                          then [audit_entry dj (request_user_pk original) original u]
                          else []))%list).
  { subst w1. destruct (pk_truthy _); simpl; [reflexivity|].
    now rewrite app_nil_r. }
  rewrite (login_with_settings_raises u w1) by (now rewrite Hreq).
  simpl. unfold listening. rewrite <- Hrecv.
  destruct (UPDATE_LAST_LOGIN la); simpl; repeat split; assumption.
Qed.

(** The admin log after a call by an anonymous request, whatever the
    outcome. *)
Lemma login_as_anonymous_log (user : User) (w : World) (store : bool) (now : Q) :
  request_user (request w) = AnonymousUser ->
  LogEntry_objects (world_after (login_as la dj user w store now))
  = LogEntry_objects w.
Proof.
  intros Hanon. unfold login_as. rewrite Hanon. simpl.
  destruct (suitable_backend dj user) as [u|e]; [|reflexivity].
  destruct (backend u); [|reflexivity].
  pose proof (login_with_settings_log u w) as Hlog.
  destruct (login_with_settings la dj u w) as [[|e] w2]; simpl in *;
    [|exact Hlog].
  destruct store; [|exact Hlog].
  destruct (LoginAsFacts.add_message_rest WARNING
              (MESSAGE_LOGIN_SWITCH la (username u)) (MESSAGE_EXTRA_TAGS la) w2)
    as (Hl3 & _).
  destruct (request_session (request (add_message _ _ _ w2)));
    simpl; now rewrite Hl3.
Qed.
End WithSettings.

End RunFacts.

(** * The cases of [restore_original_login] *)

Module RestoreCases.
Import Text Dispatch Framework Settings Auth Utils Spec Runs.

Lemma snd_except_SignatureExpired (o : Res * World) :
  snd (except_SignatureExpired o) = snd o.
Proof. destruct o as [[|[]] w]; reflexivity. Qed.

Lemma session_flag_session (la : la_settings) (r : Request) (token : string) :
  session_flag la r = Some token ->
  exists s, request_session r = Some s /\ s !! USER_SESSION_FLAG la = Some token.
Proof.
  unfold session_flag. destruct (request_session r) as [s|]; [eauto|discriminate].
Qed.

Section WithSettings.
Variable la : la_settings.
Variable dj : django_settings.

Lemma objects_get_Ok (text : string) (user : User) :
  objects_get dj text = Ok user ->
  exists z r0, parse_int text = Some z /\ row dj z = Some r0
               /\ user = set_backend r0 None.
Proof.
  unfold objects_get. destruct (parse_int text) as [z|]; [|discriminate].
  destruct (row dj z) as [r0|] eqn:Hrow; [|discriminate].
  intros [= <-]. eauto.
Qed.

(** With a session, the call logs out and then goes by the flag. *)
Lemma restore_by_flag (w : World) (now : Q) (s : gmap string string) :
  request_session (request w) = Some s ->
  restore_original_login la dj w now =
  match s !! USER_SESSION_FLAG la with
  | None => (Returned, logged_out w)
  | Some token =>
      if truthy token
      then except_SignatureExpired (restore_from la dj token (logged_out w) now)
      else (Returned, logged_out w)
  end.
Proof.
  intros Hs. unfold restore_original_login.
  rewrite Hs, (RestoreFacts.logout_session w s Hs). fold (logged_out w).
  destruct (s !! USER_SESSION_FLAG la) as [token|]; [|reflexivity].
  now destruct (truthy token).
Qed.

Lemma restore_from_unsign_raises (token : string) (w : World) (now : Q) (e : Exn) :
  Signing.unsign (signature dj) token
    (Signing.total_seconds_of_days (USER_SESSION_DAYS_TIMESTAMP la)) now = Raise e ->
  restore_from la dj token w now = (Raised e, w).
Proof. intros H. unfold restore_from. now rewrite H. Qed.

Lemma restore_from_get_raises (token text : string) (w : World) (now : Q)
    (e : Exn) :
  Signing.unsign (signature dj) token
    (Signing.total_seconds_of_days (USER_SESSION_DAYS_TIMESTAMP la)) now = Ok text ->
  objects_get dj text = Raise e ->
  restore_from la dj token w now = (Raised e, w).
Proof. intros H1 H2. unfold restore_from. now rewrite H1, H2. Qed.

(** The message is out before the backend search fails. *)
Lemma restore_from_no_backend (token text : string) (user : User) (w : World)
    (now : Q) (e : Exn) :
  Signing.unsign (signature dj) token
    (Signing.total_seconds_of_days (USER_SESSION_DAYS_TIMESTAMP la)) now = Ok text ->
  objects_get dj text = Ok user ->
  suitable_backend dj user = Raise e ->
  restore_from la dj token w now
  = (Raised ImproperlyConfigured,
     add_message INFO (MESSAGE_LOGIN_REVERT la (username user))
       (MESSAGE_EXTRA_TAGS la) w).
Proof.
  intros H1 H2 H3. unfold restore_from. rewrite H1, H2.
  apply LoginAsFacts.suitable_backend_Raise in H3 as (-> & Hb & Hf).
  unfold login_as, suitable_backend. now rewrite Hb, Hf.
Qed.

(** The state after a restore that goes through. *)
Lemma restore_from_returns (token text : string) (user u : User) (w : World)
    (now : Q) :
  request_session (request w) = Some ∅ ->
  request_user (request w) = AnonymousUser ->
  Signing.unsign (signature dj) token
    (Signing.total_seconds_of_days (USER_SESSION_DAYS_TIMESTAMP la)) now = Ok text ->
  objects_get dj text = Ok user ->
  suitable_backend dj user = Ok u ->
  exists w' b,
    restore_from la dj token w now = (Returned, w')
    /\ backend u = Some b
    /\ request w' =
       {| request_session :=
            Some (delete (USER_SESSION_FLAG la) (auth_session u b ∅));
          request_user := ModelUser u;
          request_message_level := request_message_level (request w);
          request_messages :=
            (request_messages (request w)
               ++ recorded (request_message_level (request w)) INFO
                    (MESSAGE_LOGIN_REVERT la (username user))
                    (MESSAGE_EXTRA_TAGS la))%list |}
    /\ LogEntry_objects w' = LogEntry_objects w
    /\ user_logged_in w' =
       (if UPDATE_LAST_LOGIN la then user_logged_in w
        else reconnected (user_logged_in w))
    /\ dispatched w' =
       (dispatched w ++ signal_calls user (listening la (user_logged_in w)))%list.
Proof.
  intros Hs Hanon H1 H2 Hsb. unfold restore_from. rewrite H1, H2.
  set (w2 := add_message _ _ _ w).
  pose proof (LoginAsFacts.add_message_request INFO
                (MESSAGE_LOGIN_REVERT la (username user))
                (MESSAGE_EXTRA_TAGS la) w) as Hr2.
  destruct (LoginAsFacts.add_message_rest INFO
              (MESSAGE_LOGIN_REVERT la (username user))
              (MESSAGE_EXTRA_TAGS la) w) as (Hl2 & Hc2 & Hd2).
  fold w2 in Hr2, Hl2, Hc2, Hd2.
  assert (Hs2 : request_session (request w2) = Some ∅)
    by (rewrite Hr2; exact Hs).
  pose proof (LoginAsFacts.login_as_returns la dj user u w2 false now ∅ ∅ Hsb
                Hs2 (AuthFacts.session_for_empty _)) as Hret.
  destruct (LoginAsFacts.login_as_Returned la dj user w2 false now Hret)
    as (u' & b & s0 & s & Hsb' & Hb & Hs0 & Hfor & _ & Hreq & Hlog & Hrecv).
  pose proof (RunFacts.login_as_dispatched la dj user w2 false now Hret) as Hdis.
  rewrite Hsb in Hsb'. injection Hsb' as <-.
  rewrite Hs2 in Hs0. injection Hs0 as <-.
  rewrite AuthFacts.session_for_empty in Hfor. injection Hfor as <-.
  assert (Hpk : pk_truthy (request_user_pk (request_user (request w2))) = false)
    by (rewrite Hr2; cbn [request_user]; now rewrite Hanon).
  rewrite Hpk, app_nil_r, Hl2 in Hlog.
  rewrite Hr2 in Hreq.
  cbn [request_message_level request_messages] in Hreq.
  rewrite app_nil_r in Hreq.
  rewrite Hc2 in Hrecv. rewrite Hc2, Hd2 in Hdis.
  destruct (login_as la dj user w2 false now) as [r3 u3 w3].
  cbn [result world_after] in Hret, Hreq, Hlog, Hrecv, Hdis. subst r3.
  cbn [result world_after]. rewrite Hreq. cbn [request_session].
  destruct (auth_session u b ∅ !! USER_SESSION_FLAG la) as [v|] eqn:Hfl.
  - eexists _, b. split; [reflexivity|]. split; [exact Hb|].
    split; [|repeat split; assumption].
    unfold set_request, set_session. reflexivity.
  - exists w3, b. split; [reflexivity|]. split; [exact Hb|].
    split; [|repeat split; assumption].
    rewrite Hreq, (delete_id _ _ Hfl). reflexivity.
Qed.
End WithSettings.

End RestoreCases.

(** * The receivers inside the context manager *)

Module ContextFacts.
Import Text Dispatch Framework Settings Auth Utils Spec Runs.

Lemma entered_cases (rs : Receivers) :
  entered rs =
  if has_key (key_of by_receiver) rs
  then snd (remove_key (key_of by_receiver) rs)
  else snd (remove_key (key_of by_dispatch_uid) rs).
Proof.
  unfold entered, no_update_last_login_enter, disconnect.
  change (lookup_key update_last_login None None) with (key_of by_receiver).
  change (lookup_key update_last_login None (Some "update_last_login"))
    with (key_of by_dispatch_uid).
  pose proof (DispatchFacts.remove_key_found (key_of by_receiver) rs) as H1.
  pose proof (DispatchFacts.remove_key_absent (key_of by_receiver) rs) as H0.
  destruct (remove_key (key_of by_receiver) rs) as [c1 rs1]. simpl in H1, H0.
  subst c1. destruct (has_key (key_of by_receiver) rs); simpl.
  - reflexivity.
  - rewrite (H0 eq_refl).
    now destruct (remove_key (key_of by_dispatch_uid) rs).
Qed.

Lemma entered_subset (rs : Receivers) (c : Connection) :
  In c (entered rs) -> In c rs.
Proof.
  rewrite entered_cases. destruct (has_key _ rs);
    apply DispatchFacts.remove_key_subset.
Qed.

(** Inside the context manager the first connection found is gone. *)
Lemma entered_keys (rs : Receivers) :
  NoDup (map key_of rs) ->
  has_key (key_of by_receiver) (entered rs) = false
  /\ (has_key (key_of by_receiver) rs = false ->
      has_key (key_of by_dispatch_uid) (entered rs) = false).
Proof.
  intros Hnd. rewrite entered_cases.
  destruct (has_key (key_of by_receiver) rs) eqn:Hk.
  - split; [now apply UtilsFacts.remove_key_unique | discriminate].
  - split; [|intros _; now apply UtilsFacts.remove_key_unique].
    rewrite DispatchFacts.remove_key_other by discriminate. exact Hk.
Qed.

(** Connected one way only, [update_last_login] is not among the
    receivers inside the context manager. *)
Lemma entered_without_update_last_login (rs : Receivers) (c : Connection) :
  NoDup (map key_of rs) ->
  known_connections rs ->
  ~ (In by_receiver rs /\ In by_dispatch_uid rs) ->
  In c (entered rs) -> conn_receiver c <> update_last_login.
Proof.
  intros Hnd Hknown Hone Hin Hc.
  pose proof (entered_subset rs c Hin) as Hrs.
  destruct (entered_keys rs Hnd) as [Hk1 Hk2].
  assert (Hhas : forall d, In d (entered rs) -> has_key (key_of d) (entered rs) = true)
    by (intros d Hd; apply DispatchFacts.has_key_true; eauto).
  destruct (Hknown c Hrs Hc) as [-> | ->].
  - rewrite (Hhas _ Hin) in Hk1. discriminate.
  - destruct (has_key (key_of by_receiver) rs) eqn:Hk.
    + apply DispatchFacts.has_key_true in Hk as (d & Hd & Hkd).
      apply DispatchFacts.key_by_id in Hkd. subst d. now apply Hone.
    + rewrite (Hhas _ Hin) in Hk2. now specialize (Hk2 eq_refl).
Qed.

(** Connected both ways, the connection under the dispatch uid stays. *)
Lemma entered_keeps_dispatch_uid (rs : Receivers) :
  In by_receiver rs -> In by_dispatch_uid rs -> In by_dispatch_uid (entered rs).
Proof.
  intros H1 H2. rewrite entered_cases.
  assert (has_key (key_of by_receiver) rs = true) as ->
    by (apply DispatchFacts.has_key_true; eauto).
  destruct (DispatchFacts.remove_key_In (key_of by_receiver) rs _ H2) as [H|H];
    [exact H | discriminate].
Qed.

(** The calls of one [send] name the live receivers. *)
Lemma signal_calls_In (user : User) (rs : Receivers) (r : Receiver) (p : option Z) :
  In (r, p) (signal_calls user rs) <->
  p = pk user
  /\ exists c, In c rs /\ conn_receiver c = r
               /\ (conn_sender c = None \/ conn_sender c = Some User_class).
Proof.
  unfold signal_calls, live_receivers. rewrite in_map_iff. split.
  - intros (r' & [= <- <-] & Hr). split; [reflexivity|].
    apply in_map_iff in Hr as (c & Hc & Hin).
    apply list_elem_of_In, list_elem_of_filter in Hin as [Hs Hin].
    exists c. repeat split; [now apply list_elem_of_In | assumption..].
  - intros (-> & c & Hin & <- & Hs). exists (conn_receiver c). split; [reflexivity|].
    apply in_map. apply list_elem_of_In, list_elem_of_filter.
    split; [assumption | now apply list_elem_of_In].
Qed.

End ContextFacts.

(** * Further properties of the helpers *)

Module More.
Import Text Dispatch Framework Settings Auth Utils Spec Runs.

Section WithSettings.
Variable la : la_settings.
Variable dj : django_settings.

(** X1. A call of [login_as] that returns has queued at most one
    message, and has left the recording level of the storage alone.  With
    [store_original_user] true it is the warning (level 30) built from
    MESSAGE_LOGIN_SWITCH and the target's username, with the configured
    extra tags, and it is queued only when its text is not empty and the
    storage records warnings (its level is at most 30).  With
    [store_original_user] false nothing is queued. *)
Theorem login_as_messages (user : User) (w : World) (store : bool) (now : Q) :
  let o := login_as la dj user w store now in
  let text := MESSAGE_LOGIN_SWITCH la (username user) in
  result o = Returned ->
  request_message_level (request (world_after o))
  = request_message_level (request w)
  /\ request_messages (request (world_after o)) =
     (request_messages (request w)
        ++ (if store && negb (String.eqb text EmptyString)
               && (request_message_level (request w) <=? 30)
            then [{| level := 30; message := text;
                     extra_tags := MESSAGE_EXTRA_TAGS la |}]
            else []))%list.
Proof.
  intros o text Hret.
  destruct (LoginAsFacts.login_as_Returned la dj user w store now Hret)
    as (u & b & s0 & s & Hsb & _ & _ & _ & _ & Hreq & _).
  fold o in Hreq. rewrite Hreq.
  cbn [request_message_level request_messages].
  destruct (LoginAsFacts.suitable_backend_Ok dj user u Hsb) as (b' & -> & _).
  split; [reflexivity|]. f_equal.
  destruct store; [|reflexivity].
  rewrite LoginAsFacts.recorded_eq. reflexivity.
Qed.

(** X2. After a call of [login_as] with [store_original_user=True] that
    returns, [is_impersonated_session(request)] is [True]; after a
    following [restore_original_login(request)], at any time and however
    it ends, it is [False]. *)
Theorem impersonation_flag_lifecycle (user : User) (w : World) (now later : Q) :
  let o := login_as la dj user w true now in
  result o = Returned ->
  is_impersonated_session la (request (world_after o)) = true
  /\ is_impersonated_session la
       (request (snd (restore_original_login la dj (world_after o) later)))
     = false.
Proof.
  intros o Hret.
  destruct (RestoreFacts.login_as_flag la dj user w now Hret) as (s & Hs & Hflag).
  fold o in Hs. split.
  - unfold is_impersonated_session. rewrite Hs, Hflag.
    apply bool_decide_eq_true. eauto.
  - apply RestoreFacts.restore_original_login_clears_flag. rewrite Hs. eauto.
Qed.

(** X3. On a request with a session, a [restore_original_login] that
    raises leaves the request logged out: the user is anonymous and the
    session is empty.  The exception is never SignatureExpired. *)
Theorem restore_failure_logs_out (w : World) (now : Q) (e : Exn) :
  let r := restore_original_login la dj w now in
  is_Some (request_session (request w)) ->
  fst r = Raised e ->
  request_user (request (snd r)) = AnonymousUser
  /\ request_session (request (snd r)) = Some ∅
  /\ e <> SignatureExpired.
Proof.
  intros r [s Hs]. subst r. rewrite (RestoreCases.restore_by_flag la dj w now s Hs).
  destruct (s !! USER_SESSION_FLAG la) as [token|]; [|discriminate].
  destruct (truthy token); [|discriminate].
  destruct (Signing.unsign (signature dj) token
              (Signing.total_seconds_of_days (USER_SESSION_DAYS_TIMESTAMP la)) now)
    as [text|e1] eqn:Hu.
  - destruct (objects_get dj text) as [user|e2] eqn:Hg.
    + destruct (suitable_backend dj user) as [u|e3] eqn:Hsb.
      * destruct (RestoreCases.restore_from_returns la dj token text user u
                    (logged_out w) now eq_refl eq_refl Hu Hg Hsb)
          as (w' & b & -> & _). discriminate.
      * rewrite (RestoreCases.restore_from_no_backend la dj token text user
                   (logged_out w) now e3 Hu Hg Hsb).
        rewrite LoginAsFacts.add_message_world.
        simpl. intros [= <-]. repeat split. discriminate.
    + rewrite (RestoreCases.restore_from_get_raises la dj token text
                 (logged_out w) now e2 Hu Hg).
      destruct e2; simpl; intros [= <-]; repeat split; discriminate.
  - rewrite (RestoreCases.restore_from_unsign_raises la dj token
               (logged_out w) now e1 Hu).
    destruct e1; simpl; intros [= <-]; repeat split; discriminate.
Qed.

(** X4. [restore_original_login] never writes to the admin log, however
    it ends: the nested [login_as] runs after the logout, for an anonymous
    request. *)
Theorem restore_writes_no_audit_entry (w : World) (now : Q) :
  LogEntry_objects (snd (restore_original_login la dj w now))
  = LogEntry_objects w.
Proof.
  destruct (request_session (request w)) as [s|] eqn:Hs.
  - rewrite (RestoreCases.restore_by_flag la dj w now s Hs).
    destruct (s !! USER_SESSION_FLAG la) as [token|]; [|reflexivity].
    destruct (truthy token); [|reflexivity].
    rewrite RestoreCases.snd_except_SignatureExpired. unfold restore_from.
    destruct (Signing.unsign _ _ _ _) as [text|e1]; [|reflexivity].
    destruct (objects_get dj text) as [user|e2]; [|reflexivity].
    set (w2 := add_message _ _ _ (logged_out w)).
    assert (Hanon : request_user (request w2) = AnonymousUser)
      by (subst w2; now rewrite LoginAsFacts.add_message_request).
    assert (Hl2 : LogEntry_objects w2 = LogEntry_objects w)
      by (subst w2; now rewrite (proj1 (LoginAsFacts.add_message_rest _ _ _ _))).
    pose proof (RunFacts.login_as_anonymous_log la dj user w2 false now Hanon)
      as Hlog.
    rewrite Hl2 in Hlog. clearbody w2.
    destruct (login_as la dj user w2 false now) as [[|e3] u3 w3]; simpl in *;
      [|exact Hlog].
    destruct (request_session (request w3)) as [s3|]; [|exact Hlog].
    destruct (s3 !! USER_SESSION_FLAG la); exact Hlog.
  - unfold restore_original_login. now rewrite Hs.
Qed.

(** X5. When the flag of the session was signed longer ago than the
    configured number of days, [restore_original_login] swallows the
    SignatureExpired: it returns, and all it has done is the logout (no
    message, nobody logged in, empty session). *)
Theorem restore_expired_flag (w : World) (now : Q) (value : string)
    (signed_at : Q) :
  (forall v, sep_free (signature dj v) = true) ->
  session_flag la (request w) = Some (Signing.sign (signature dj) value signed_at) ->
  (Signing.total_seconds_of_days (USER_SESSION_DAYS_TIMESTAMP la)
   < now - inject_Z (Signing.int_of_time signed_at))%Q ->
  restore_original_login la dj w now = (Returned, logged_out w).
Proof.
  intros Hsig Hflag Hage.
  apply RestoreCases.session_flag_session in Hflag as (s & Hs & Hflag).
  rewrite (RestoreCases.restore_by_flag la dj w now s Hs), Hflag.
  rewrite RestoreFacts.truthy_sign.
  rewrite (RestoreCases.restore_from_unsign_raises la dj _ _ now SignatureExpired);
    [reflexivity|].
  now apply SigningFacts.unsign_expired.
Qed.

(** X6. A flag whose last field is not the signer's MAC of what precedes
    it is refused: [restore_original_login] raises BadSignature (which it
    does not catch) after the logout, and nobody is logged in. *)
Theorem restore_forged_flag (w : World) (now : Q) (value forged : string) :
  session_flag la (request w) = Some (value ++ String sep forged) ->
  sep_free forged = true ->
  forged <> signature dj value ->
  restore_original_login la dj w now = (Raised BadSignature, logged_out w).
Proof.
  intros Hflag Hfree Hne.
  apply RestoreCases.session_flag_session in Hflag as (s & Hs & Hflag).
  rewrite (RestoreCases.restore_by_flag la dj w now s Hs), Hflag.
  rewrite RestoreFacts.truthy_append.
  rewrite (RestoreCases.restore_from_unsign_raises la dj _ _ now BadSignature);
    [reflexivity|].
  now apply RunFacts.unsign_forged.
Qed.

(** X7. [restore_original_login] logs in nobody but the user the flag
    names: if, on a request with a session, [request.user] is a user [u]
    after the call, then the call returned, the session carried a flag
    bearing the signer's MAC, the signed text reads as the integer [z]
    (the way [int()] reads a text: blanks around it, a sign and single
    underscores between digits allowed), and [u] is the row of the user
    model with pk [z], under a suitable backend. *)
Theorem restore_logs_in_only_the_signed_user (w : World) (now : Q) (u : User) :
  let r := restore_original_login la dj w now in
  is_Some (request_session (request w)) ->
  request_user (request (snd r)) = ModelUser u ->
  exists text ts z r0 b,
    session_flag la (request w)
    = Some (Signing.Signer_sign (signature dj) (text ++ String sep ts))
    /\ parse_int text = Some z
    /\ row dj z = Some r0
    /\ suitable dj (set_backend r0 None) b
    /\ u = set_backend r0 (Some b)
    /\ fst r = Returned.
Proof.
  intros r [s Hs]. subst r. unfold session_flag.
  rewrite (RestoreCases.restore_by_flag la dj w now s Hs), Hs.
  destruct (s !! USER_SESSION_FLAG la) as [token|]; [|discriminate].
  destruct (truthy token); [|discriminate].
  destruct (Signing.unsign (signature dj) token
              (Signing.total_seconds_of_days (USER_SESSION_DAYS_TIMESTAMP la)) now)
    as [text|e1] eqn:Hu.
  - destruct (objects_get dj text) as [user|e2] eqn:Hg.
    + destruct (suitable_backend dj user) as [u'|e3] eqn:Hsb.
      * destruct (RestoreCases.restore_from_returns la dj token text user u'
                    (logged_out w) now eq_refl eq_refl Hu Hg Hsb)
          as (w' & b & -> & Hb & Hreq & _).
        simpl. rewrite Hreq. simpl. intros [= <-].
        destruct (RunFacts.unsign_Ok dj token text _ now Hu) as (ts & ->).
        destruct (RestoreCases.objects_get_Ok dj text user Hg) as (z & r0 & Hp & Hrow & ->).
        destruct (LoginAsFacts.suitable_backend_Ok dj _ u' Hsb)
          as (b' & -> & [Hpre | [_ Hfind]]); [discriminate|].
        destruct (LoginAsFacts.find_backend_Some dj _ _ b' Hfind)
          as (_ & _ & _ & Hsuit & _).
        exists text, ts, z, r0, b'. repeat split; assumption.
      * rewrite (RestoreCases.restore_from_no_backend la dj token text user
                   (logged_out w) now e3 Hu Hg Hsb).
        rewrite LoginAsFacts.add_message_world. discriminate.
    + rewrite (RestoreCases.restore_from_get_raises la dj token text
                 (logged_out w) now e2 Hu Hg).
      rewrite RestoreCases.snd_except_SignatureExpired. discriminate.
  - rewrite (RestoreCases.restore_from_unsign_raises la dj token
               (logged_out w) now e1 Hu).
    rewrite RestoreCases.snd_except_SignatureExpired. discriminate.
Qed.

(** X9. With the update-last-login feature disabled and
    [update_last_login] connected one way only (by receiver or under the
    dispatch uid ["update_last_login"], for any sender, no key twice),
    none of the calls the signal makes during a [login_as] that returns is
    a call of [update_last_login]. *)
Theorem login_as_skips_update_last_login (user : User) (w : World)
    (store : bool) (now : Q) :
  let o := login_as la dj user w store now in
  UPDATE_LAST_LOGIN la = false ->
  NoDup (map key_of (user_logged_in w)) ->
  known_connections (user_logged_in w) ->
  ~ (In by_receiver (user_logged_in w) /\ In by_dispatch_uid (user_logged_in w)) ->
  result o = Returned ->
  exists calls,
    dispatched (world_after o) = (dispatched w ++ calls)%list
    /\ forall p, ~ In (update_last_login, p) calls.
Proof.
  intros o Hoff Hnd Hknown Hone Hret. subst o.
  rewrite (RunFacts.login_as_dispatched la dj user w store now Hret).
  unfold listening. rewrite Hoff.
  eexists. split; [reflexivity|].
  intros p Hnew.
  apply ContextFacts.signal_calls_In in Hnew as (_ & c & Hin & Hc & _).
  now apply (ContextFacts.entered_without_update_last_login
               (user_logged_in w) c Hnd Hknown Hone Hin).
Qed.

(** X10. With the feature disabled but [update_last_login] connected
    both by receiver and under the dispatch uid, only the first connection
    is taken away ([not was_connected and ...]): a call of [login_as] that
    returns has called [update_last_login] for the target all the same. *)
Theorem login_as_connected_twice_still_updates (user : User) (w : World)
    (store : bool) (now : Q) :
  let o := login_as la dj user w store now in
  UPDATE_LAST_LOGIN la = false ->
  In by_receiver (user_logged_in w) ->
  In by_dispatch_uid (user_logged_in w) ->
  result o = Returned ->
  In (update_last_login, pk user) (dispatched (world_after o)).
Proof.
  intros o Hoff H1 H2 Hret. subst o.
  rewrite (RunFacts.login_as_dispatched la dj user w store now Hret).
  unfold listening. rewrite Hoff.
  apply in_or_app. right. apply ContextFacts.signal_calls_In.
  split; [reflexivity|]. exists by_dispatch_uid.
  repeat split; [now apply ContextFacts.entered_keeps_dispatch_uid | now left].
Qed.

(** X11. With the update-last-login feature enabled, a call of
    [login_as] that returns leaves the receivers of [user_logged_in] as
    they are, in their order, and has called [update_last_login] for the
    target whenever it is connected for any sender or for the user model. *)
Theorem login_as_updates_last_login (user : User) (w : World) (store : bool)
    (now : Q) (c : Connection) :
  let o := login_as la dj user w store now in
  UPDATE_LAST_LOGIN la = true ->
  result o = Returned ->
  user_logged_in (world_after o) = user_logged_in w
  /\ (In c (user_logged_in w) ->
      conn_receiver c = update_last_login ->
      conn_sender c = None \/ conn_sender c = Some User_class ->
      In (update_last_login, pk user) (dispatched (world_after o))).
Proof.
  intros o Hon Hret. subst o. split.
  - destruct (LoginAsFacts.login_as_Returned la dj user w store now Hret)
      as (u & b & s0 & s & _ & _ & _ & _ & _ & _ & _ & Hrecv).
    now rewrite Hon in Hrecv.
  - intros Hin Hc Hsender.
    rewrite (RunFacts.login_as_dispatched la dj user w store now Hret).
    unfold listening. rewrite Hon.
    apply in_or_app. right. apply ContextFacts.signal_calls_In.
    split; [reflexivity|]. exists c. auto.
Qed.

(** X12. Impersonating from an impersonated session: when [login_as]
    with [store_original_user=True] returns for [first] and then, on the
    same request, for [second], the flag holds the signed pk of [first],
    not of the user the request had at the start. *)
Theorem login_as_twice_records_the_first_target (first second : User)
    (w : World) (t t' : Q) :
  let o1 := login_as la dj first w true t in
  let o2 := login_as la dj second (world_after o1) true t' in
  result o1 = Returned ->
  result o2 = Returned ->
  session_flag la (request (world_after o2))
  = Some (Signing.sign (signature dj) (str_pk (pk first)) t').
Proof.
  intros o1 o2 Hret1 Hret2.
  destruct (LoginAsFacts.login_as_Returned la dj first w true t Hret1)
    as (u & b & s0 & s & Hsb & _ & _ & _ & _ & Hreq & _).
  destruct (LoginAsFacts.suitable_backend_Ok dj first u Hsb) as (b' & Hu & _).
  destruct (RestoreFacts.login_as_flag la dj second (world_after o1) t' Hret2)
    as (s2 & Hs2 & Hflag).
  fold o2 in Hs2. unfold session_flag. rewrite Hs2, Hflag.
  fold o1 in Hreq. rewrite Hreq. simpl. now rewrite Hu.
Qed.

(** X13. The audit entry is written before the login.  When [login_as]
    has found a backend and the request has no session, so that the
    framework's [login] raises, [login_as] raises AttributeError, the
    backend stays recorded on the user, the request is untouched, and the
    admin log keeps the entry (for a truthy original pk). *)
Theorem login_as_audit_precedes_login (user : User) (w : World) (store : bool)
    (now : Q) (b : string) :
  let o := login_as la dj user w store now in
  let original := request_user (request w) in
  backend user = Some b
  \/ (backend user = None
      /\ find_backend dj user (AUTHENTICATION_BACKENDS dj) = Some b) ->
  request_session (request w) = None ->
  result o = Raised AttributeError
  /\ user_after o = set_backend user (Some b)
  /\ request (world_after o) = request w
  /\ LogEntry_objects (world_after o)
     = (LogEntry_objects w
          ++ (if pk_truthy (request_user_pk original)
              then [{| user_id := request_user_pk original;
                       content_type_id := User_content_type dj;
                       object_id := pk user;
                       object_repr := username user;
                       change_message :=
                         "User " ++ str_request_user original
                           ++ " logged in as " ++ username user ++ ".";
                       action_flag := CHANGE |}]
              else []))%list.
Proof.
  intros o original Hb Hs.
  assert (Hsb : suitable_backend dj user = Ok (set_backend user (Some b))).
  { unfold suitable_backend. destruct Hb as [Hb | [Hb Hf]].
    - rewrite Hb. now rewrite (LoginAsFacts.set_backend_same user b Hb).
    - now rewrite Hb, Hf. }
  destruct (RunFacts.login_as_no_session la dj user _ w store now Hsb Hs)
    as (H1 & H2 & H3 & H4 & _).
  repeat split; assumption.
Qed.

(** X14. The revert message is handed to the storage before the nested
    [login_as].  When the flag is valid and names a row of the user model
    that no configured backend is suitable for, [restore_original_login]
    raises ImproperlyConfigured with the request logged out and the
    message "logged back in" (level 20) already queued, provided its text
    is not empty and the storage records level 20; nothing else has
    changed. *)
Theorem restore_message_precedes_backend_search (w : World) (now : Q) (z : Z)
    (r0 : User) (signed_at : Q) :
  let text := MESSAGE_LOGIN_REVERT la (username r0) in
  (forall v, sep_free (signature dj v) = true) ->
  session_flag la (request w)
  = Some (Signing.sign (signature dj) (str_int z) signed_at) ->
  (now - inject_Z (Signing.int_of_time signed_at)
   <= Signing.total_seconds_of_days (USER_SESSION_DAYS_TIMESTAMP la))%Q ->
  row dj z = Some r0 ->
  (forall b, In b (AUTHENTICATION_BACKENDS dj) -> ~ suitable dj (set_backend r0 None) b) ->
  restore_original_login la dj w now =
  (Raised ImproperlyConfigured,
   {| request :=
        {| request_session := Some ∅;
           request_user := AnonymousUser;
           request_message_level := request_message_level (request w);
           request_messages :=
             (request_messages (request w)
                ++ (if negb (String.eqb text EmptyString)
                       && (request_message_level (request w) <=? 20)
                    then [{| level := 20; message := text;
                             extra_tags := MESSAGE_EXTRA_TAGS la |}]
                    else []))%list |};
      LogEntry_objects := LogEntry_objects w;
      user_logged_in := user_logged_in w;
      dispatched := dispatched w |}).
Proof.
  intros text Hsig Hflag Hage Hrow Hnone.
  apply RestoreCases.session_flag_session in Hflag as (s & Hs & Hflag).
  rewrite (RestoreCases.restore_by_flag la dj w now s Hs), Hflag.
  rewrite RestoreFacts.truthy_sign.
  rewrite (RestoreCases.restore_from_no_backend la dj _ (str_int z)
             (set_backend r0 None) (logged_out w) now ImproperlyConfigured).
  - rewrite LoginAsFacts.add_message_world, LoginAsFacts.recorded_eq.
    reflexivity.
  - now apply SigningFacts.unsign_sign.
  - now apply AuthFacts.objects_get_row.
  - unfold suitable_backend. simpl.
    now rewrite (proj2 (LoginAsFacts.find_backend_None dj _ _) Hnone).
Qed.

(** X15. A restore that goes through starts from an empty session.  When
    the flag is valid, names a row [r0] of the user model and the backend
    search finds [b] for it, [restore_original_login] returns with
    [request.user] the row under [b], a session that holds the three keys
    of that login and nothing of the session before (the flag key
    deleted), the recording level as it was, at most one new message (the
    revert message, level 20, queued when its text is not empty and the
    storage records level 20), and the admin log as it was. *)
Theorem restore_starts_from_an_empty_session (w : World) (now : Q) (z : Z)
    (r0 : User) (b : string) (signed_at : Q) :
  let text := MESSAGE_LOGIN_REVERT la (username r0) in
  (forall v, sep_free (signature dj v) = true) ->
  session_flag la (request w)
  = Some (Signing.sign (signature dj) (str_int z) signed_at) ->
  (now - inject_Z (Signing.int_of_time signed_at)
   <= Signing.total_seconds_of_days (USER_SESSION_DAYS_TIMESTAMP la))%Q ->
  row dj z = Some r0 ->
  find_backend dj (set_backend r0 None) (AUTHENTICATION_BACKENDS dj) = Some b ->
  exists w',
    restore_original_login la dj w now = (Returned, w')
    /\ request w' =
       {| request_session :=
            Some (delete (USER_SESSION_FLAG la)
                    (<[HASH_SESSION_KEY := session_auth_hash r0]>
                       (<[BACKEND_SESSION_KEY := b]>
                          (<[SESSION_KEY := str_int z]> ∅))));
          request_user :=
            ModelUser {| pk := Some z; username := username r0;
                         backend := Some b;
                         session_auth_hash := session_auth_hash r0 |};
          request_message_level := request_message_level (request w);
          request_messages :=
            (request_messages (request w)
               ++ (if negb (String.eqb text EmptyString)
                      && (request_message_level (request w) <=? 20)
                   then [{| level := 20; message := text;
                            extra_tags := MESSAGE_EXTRA_TAGS la |}]
                   else []))%list |}
    /\ LogEntry_objects w' = LogEntry_objects w.
Proof.
  intros text Hsig Hflag Hage Hrow Hfind.
  apply RestoreCases.session_flag_session in Hflag as (s & Hs & Hflag).
  rewrite (RestoreCases.restore_by_flag la dj w now s Hs), Hflag.
  rewrite RestoreFacts.truthy_sign.
  assert (Hsb : suitable_backend dj (set_backend r0 None)
                = Ok (set_backend r0 (Some b)))
    by (unfold suitable_backend; simpl; now rewrite Hfind).
  destruct (RestoreCases.restore_from_returns la dj
              (Signing.sign (signature dj) (str_int z) signed_at) (str_int z)
              (set_backend r0 None) (set_backend r0 (Some b)) (logged_out w) now
              eq_refl eq_refl
              (SigningFacts.unsign_sign _ Hsig _ _ _ _ Hage)
              (AuthFacts.objects_get_row dj z r0 Hrow) Hsb)
    as (w' & b' & -> & Hb' & Hreq & Hlog & _).
  assert (b' = b) as -> by (unfold set_backend in Hb'; simpl in Hb'; congruence).
  exists w'. split; [reflexivity|]. split; [|exact Hlog].
  rewrite Hreq, LoginAsFacts.recorded_eq.
  unfold auth_session, set_backend. cbn [pk username backend session_auth_hash].
  now rewrite (AuthFacts.row_pk dj z r0 Hrow).
Qed.

(** X16. When the flag is valid but the user model has no row with the
    signed pk any more, [restore_original_login] raises DoesNotExist
    (which it does not catch); all it has done is the logout. *)
Theorem restore_deleted_user (w : World) (now : Q) (z : Z) (signed_at : Q) :
  (forall v, sep_free (signature dj v) = true) ->
  session_flag la (request w)
  = Some (Signing.sign (signature dj) (str_int z) signed_at) ->
  (now - inject_Z (Signing.int_of_time signed_at)
   <= Signing.total_seconds_of_days (USER_SESSION_DAYS_TIMESTAMP la))%Q ->
  row dj z = None ->
  restore_original_login la dj w now = (Raised DoesNotExist, logged_out w).
Proof.
  intros Hsig Hflag Hage Hrow.
  apply RestoreCases.session_flag_session in Hflag as (s & Hs & Hflag).
  rewrite (RestoreCases.restore_by_flag la dj w now s Hs), Hflag.
  rewrite RestoreFacts.truthy_sign.
  rewrite (RestoreCases.restore_from_get_raises la dj _ (str_int z) _ now
             DoesNotExist); [reflexivity | now apply SigningFacts.unsign_sign |].
  unfold objects_get. now rewrite TextFacts.parse_int_str_int, Hrow.
Qed.

(** X17. [login_as] stores the flag also for an anonymous request, whose
    pk is [None]; the flag then holds the text of [None].  On a request
    carrying that flag, [restore_original_login] within the configured
    time raises ValueError after the logout: the text is no pk. *)
Theorem restore_after_anonymous_login_as (dj0 : django_settings) (target : User)
    (w0 : World) (signed_at : Q) (w : World) (now : Q) :
  let o := login_as la dj0 target w0 true signed_at in
  (forall v, sep_free (signature dj v) = true) ->
  signature dj0 = signature dj ->
  request_user (request w0) = AnonymousUser ->
  result o = Returned ->
  session_flag la (request w) = session_flag la (request (world_after o)) ->
  (now - inject_Z (Signing.int_of_time signed_at)
   <= Signing.total_seconds_of_days (USER_SESSION_DAYS_TIMESTAMP la))%Q ->
  session_flag la (request w) = Some (Signing.sign (signature dj) "None" signed_at)
  /\ restore_original_login la dj w now = (Raised ValueError, logged_out w).
Proof.
  intros o Hsig Hkey Hanon Hret Hsame Hage.
  destruct (RestoreFacts.login_as_flag la dj0 target w0 signed_at Hret)
    as (s0 & Hs0 & Htoken).
  fold o in Hs0. rewrite Hanon, Hkey in Htoken. simpl in Htoken.
  assert (Hflag : session_flag la (request w)
                  = Some (Signing.sign (signature dj) "None" signed_at)).
  { rewrite Hsame. unfold session_flag. now rewrite Hs0. }
  split; [exact Hflag|].
  apply RestoreCases.session_flag_session in Hflag as (s & Hs & Hflag).
  rewrite (RestoreCases.restore_by_flag la dj w now s Hs), Hflag.
  rewrite RestoreFacts.truthy_sign.
  rewrite (RestoreCases.restore_from_get_raises la dj _ "None" _ now ValueError);
    [reflexivity | now apply SigningFacts.unsign_sign | reflexivity].
Qed.
End WithSettings.

(** X8. [no_update_last_login] restores the receivers only after a body
    that returns.  When the body raises (and leaves the receivers alone),
    the exception goes through and the connection that was disconnected
    stays so: the one by receiver, or, when there was none, the one under
    the dispatch uid (no key being connected twice). *)
Theorem no_update_last_login_body_raises (body : World -> Res * World)
    (w w' : World) (e : Exn) :
  NoDup (map key_of (user_logged_in w)) ->
  body (set_receivers w (entered (user_logged_in w))) = (Raised e, w') ->
  user_logged_in w' = entered (user_logged_in w) ->
  no_update_last_login body w = (Raised e, w')
  /\ has_key (key_of by_receiver) (user_logged_in w') = false
  /\ (has_key (key_of by_receiver) (user_logged_in w) = false ->
      has_key (key_of by_dispatch_uid) (user_logged_in w') = false).
Proof.
  intros Hnd Hbody Hsame. split.
  - unfold no_update_last_login. unfold entered in Hbody.
    destruct (no_update_last_login_enter (user_logged_in w)) as [[a b] rs].
    simpl in Hbody. now rewrite Hbody.
  - rewrite Hsame. now apply ContextFacts.entered_keys.
Qed.

(** *** The properties above on the small project *)

Import Demo Cases.

Lemma login_as_messages_witness :
  (request_message_level (request impersonating_world) = 20
   /\ request_messages (request impersonating_world)
      = [{| level := 30; message := "You are now logged in as bob";
            extra_tags := "" |}])
  /\ (request_message_level
        (request (world_after (login_as la dj bob quiet_world true t0))) = 40
      /\ request_messages
           (request (world_after (login_as la dj bob quiet_world true t0))) = []).
Proof.
  split.
  - apply (login_as_messages la dj bob alice_world true t0).
    vm_compute. reflexivity.
  - apply (login_as_messages la dj bob quiet_world true t0).
    vm_compute. reflexivity.
Defined.

Lemma impersonation_flag_lifecycle_witness :
  is_impersonated_session la (request impersonating_world) = true
  /\ is_impersonated_session la
       (request (snd (restore_original_login la dj impersonating_world t1)))
     = false.
Proof.
  apply (impersonation_flag_lifecycle la dj bob alice_world t0 t1).
  vm_compute. reflexivity.
Defined.

Lemma restore_failure_logs_out_witness :
  let r := restore_original_login la dj_without_alice impersonating_world t1 in
  request_user (request (snd r)) = AnonymousUser
  /\ request_session (request (snd r)) = Some ∅
  /\ DoesNotExist <> SignatureExpired.
Proof.
  apply (restore_failure_logs_out la dj_without_alice impersonating_world t1
           DoesNotExist).
  - vm_compute. eauto.
  - vm_compute. reflexivity.
Defined.

Lemma restore_expired_flag_witness :
  restore_original_login la dj impersonating_world t2
  = (Returned, logged_out impersonating_world).
Proof.
  apply (restore_expired_flag la dj impersonating_world t2 "1" t0).
  - exact DemoFacts.mac_text.
  - vm_compute. reflexivity.
  - vm_compute. reflexivity.
Defined.

Lemma restore_forged_flag_witness :
  restore_original_login la dj forged_world t1
  = (Raised BadSignature, logged_out forged_world).
Proof.
  apply (restore_forged_flag la dj forged_world t1 "1:1r31eq" "forged").
  - vm_compute. reflexivity.
  - reflexivity.
  - vm_compute. discriminate.
Defined.

(** A flag that signs [+1] restores [alice]: the pk is read as [int()]
    reads it. *)
Example restore_reads_a_signed_plus_one :
  let r := restore_original_login la dj plus_world t1 in
  fst r = Returned
  /\ request_user (request (snd r))
     = ModelUser {| pk := Some 1; username := "alice";
                    backend := Some ModelBackend;
                    session_auth_hash := "h-alice" |}.
Proof. vm_compute. split; reflexivity. Qed.

Lemma restore_logs_in_only_the_signed_user_witness :
  exists text ts z r0 b,
    session_flag la (request impersonating_world)
    = Some (Signing.Signer_sign mac (text ++ String sep ts))
    /\ parse_int text = Some z
    /\ row dj z = Some r0
    /\ suitable dj (set_backend r0 None) b
    /\ set_backend alice (Some ModelBackend) = set_backend r0 (Some b)
    /\ fst (restore_original_login la dj impersonating_world t1) = Returned.
Proof.
  apply (restore_logs_in_only_the_signed_user la dj impersonating_world t1
           (set_backend alice (Some ModelBackend))).
  - vm_compute. eauto.
  - vm_compute. reflexivity.
Defined.

Lemma receivers0_keys : NoDup (map key_of receivers0).
Proof. apply (bool_decide_unpack _). vm_compute. exact I. Qed.

Lemma receivers0_known : known_connections receivers0.
Proof.
  intros c [<-|[<-|[]]]; simpl; [intros _; now right | discriminate].
Qed.

Lemma login_as_skips_update_last_login_witness :
  exists calls,
    dispatched impersonating_world = (dispatched alice_world ++ calls)%list
    /\ forall p, ~ In (update_last_login, p) calls.
Proof.
  apply (login_as_skips_update_last_login la dj bob alice_world true t0).
  - reflexivity.
  - exact receivers0_keys.
  - exact receivers0_known.
  - intros [[H|[H|[]]] _]; discriminate.
  - vm_compute. reflexivity.
Defined.

Lemma login_as_connected_twice_still_updates_witness :
  In (update_last_login, Some 2)
     (dispatched (world_after (login_as la dj bob both_world true t0))).
Proof.
  apply (login_as_connected_twice_still_updates la dj bob both_world true t0).
  - reflexivity.
  - now left.
  - right. now left.
  - vm_compute. reflexivity.
Defined.

Lemma login_as_updates_last_login_witness :
  user_logged_in (world_after (login_as la_update dj bob alice_world true t0))
  = receivers0
  /\ In (update_last_login, Some 2)
        (dispatched (world_after (login_as la_update dj bob alice_world true t0))).
Proof.
  destruct (login_as_updates_last_login la_update dj bob alice_world true t0
              by_dispatch_uid) as [Hsame Hcalled].
  - reflexivity.
  - vm_compute. reflexivity.
  - split; [exact Hsame|]. apply Hcalled; [now left | reflexivity | now left].
Defined.

Lemma login_as_twice_records_the_first_target_witness :
  session_flag la
    (request (world_after (login_as la dj carol impersonating_world true t1)))
  = Some (Signing.sign mac "2" t1).
Proof.
  apply (login_as_twice_records_the_first_target la dj bob carol alice_world t0 t1).
  - vm_compute. reflexivity.
  - vm_compute. reflexivity.
Defined.

Lemma login_as_audit_precedes_login_witness :
  let o := login_as la dj bob factory_world true t0 in
  result o = Raised AttributeError
  /\ user_after o = set_backend bob (Some ModelBackend)
  /\ request (world_after o) = request factory_world
  /\ LogEntry_objects (world_after o)
     = [{| user_id := Some 1; content_type_id := 4; object_id := Some 2;
           object_repr := "bob"; change_message := "User alice logged in as bob.";
           action_flag := 2 |}].
Proof.
  apply (login_as_audit_precedes_login la dj bob factory_world true t0 ModelBackend).
  - right. split; reflexivity.
  - reflexivity.
Defined.

Lemma restore_message_precedes_backend_search_witness :
  (let w := world_after (login_as la dj_bob_only bob alice_world true t0) in
   restore_original_login la dj_bob_only w t1 =
   (Raised ImproperlyConfigured,
    {| request :=
         {| request_session := Some ∅;
            request_user := AnonymousUser;
            request_message_level := 20;
            request_messages :=
              [{| level := 30; message := "You are now logged in as bob";
                  extra_tags := "" |};
               {| level := 20; message := "You are now logged back in as alice";
                  extra_tags := "" |}] |};
       LogEntry_objects := LogEntry_objects w;
       user_logged_in := user_logged_in w;
       dispatched := dispatched w |}))
  /\ (let w := world_after (login_as la dj_bob_only bob quiet_world true t0) in
      restore_original_login la dj_bob_only w t1 =
      (Raised ImproperlyConfigured,
       {| request :=
            {| request_session := Some ∅;
               request_user := AnonymousUser;
               request_message_level := 40;
               request_messages := [] |};
          LogEntry_objects := LogEntry_objects w;
          user_logged_in := user_logged_in w;
          dispatched := dispatched w |})).
Proof.
  split.
  - apply (restore_message_precedes_backend_search la dj_bob_only
             (world_after (login_as la dj_bob_only bob alice_world true t0))
             t1 1 alice t0).
    + exact DemoFacts.mac_text.
    + vm_compute. reflexivity.
    + exact DemoFacts.within_two_days.
    + reflexivity.
    + intros b _. apply DemoFacts.bob_backend_not_for_alice.
  - apply (restore_message_precedes_backend_search la dj_bob_only
             (world_after (login_as la dj_bob_only bob quiet_world true t0))
             t1 1 alice t0).
    + exact DemoFacts.mac_text.
    + vm_compute. reflexivity.
    + exact DemoFacts.within_two_days.
    + reflexivity.
    + intros b _. apply DemoFacts.bob_backend_not_for_alice.
Defined.

Lemma restore_starts_from_an_empty_session_witness :
  (exists w',
     restore_original_login la dj impersonating_world t1 = (Returned, w')
     /\ request w' =
        {| request_session :=
             Some (delete "loginas_from_user"
                     (<[HASH_SESSION_KEY := "h-alice"]>
                        (<[BACKEND_SESSION_KEY := ModelBackend]>
                           (<[SESSION_KEY := "1"]> ∅))));
           request_user :=
             ModelUser {| pk := Some 1; username := "alice";
                          backend := Some ModelBackend;
                          session_auth_hash := "h-alice" |};
           request_message_level := 20;
           request_messages :=
             [{| level := 30; message := "You are now logged in as bob";
                 extra_tags := "" |};
              {| level := 20; message := "You are now logged back in as alice";
                 extra_tags := "" |}] |}
     /\ LogEntry_objects w' = LogEntry_objects impersonating_world)
  /\ (exists w',
        restore_original_login la dj
          (world_after (login_as la dj bob quiet_world true t0)) t1
        = (Returned, w')
        /\ request w' =
           {| request_session :=
                Some (delete "loginas_from_user"
                        (<[HASH_SESSION_KEY := "h-alice"]>
                           (<[BACKEND_SESSION_KEY := ModelBackend]>
                              (<[SESSION_KEY := "1"]> ∅))));
              request_user :=
                ModelUser {| pk := Some 1; username := "alice";
                             backend := Some ModelBackend;
                             session_auth_hash := "h-alice" |};
              request_message_level := 40;
              request_messages := [] |}
        /\ LogEntry_objects w'
           = LogEntry_objects
               (world_after (login_as la dj bob quiet_world true t0))).
Proof.
  split.
  - apply (restore_starts_from_an_empty_session la dj impersonating_world t1 1
             alice ModelBackend t0).
    + exact DemoFacts.mac_text.
    + vm_compute. reflexivity.
    + exact DemoFacts.within_two_days.
    + reflexivity.
    + reflexivity.
  - apply (restore_starts_from_an_empty_session la dj
             (world_after (login_as la dj bob quiet_world true t0)) t1 1
             alice ModelBackend t0).
    + exact DemoFacts.mac_text.
    + vm_compute. reflexivity.
    + exact DemoFacts.within_two_days.
    + reflexivity.
    + reflexivity.
Defined.

Lemma restore_deleted_user_witness :
  restore_original_login la dj_without_alice impersonating_world t1
  = (Raised DoesNotExist, logged_out impersonating_world).
Proof.
  apply (restore_deleted_user la dj_without_alice impersonating_world t1 1 t0).
  - exact DemoFacts.mac_text.
  - vm_compute. reflexivity.
  - exact DemoFacts.within_two_days.
  - reflexivity.
Defined.

Lemma restore_after_anonymous_login_as_witness :
  let w := world_after (login_as la dj bob anonymous_world true t0) in
  session_flag la (request w) = Some (Signing.sign mac "None" t0)
  /\ restore_original_login la dj w t1 = (Raised ValueError, logged_out w).
Proof.
  apply (restore_after_anonymous_login_as la dj dj bob anonymous_world t0 _ t1).
  - exact DemoFacts.mac_text.
  - reflexivity.
  - reflexivity.
  - vm_compute. reflexivity.
  - reflexivity.
  - exact DemoFacts.within_two_days.
Defined.

Lemma no_update_last_login_body_raises_witness :
  no_update_last_login (login dj bob) factory_world
  = (Raised AttributeError, set_receivers factory_world (entered receivers0))
  /\ has_key (key_of by_receiver) (entered receivers0) = false
  /\ has_key (key_of by_dispatch_uid) (entered receivers0) = false.
Proof.
  destruct (no_update_last_login_body_raises (login dj bob) factory_world
              (set_receivers factory_world (entered receivers0)) AttributeError)
    as (Hraise & Hfirst & Hsecond).
  - exact receivers0_keys.
  - reflexivity.
  - reflexivity.
  - split; [exact Hraise|]. split; [exact Hfirst|]. apply Hsecond. reflexivity.
Defined.

End More.
